(** * pip.operations.prepare: preparing a distribution for installation

    A shallow embedding of [src/pip/operations/prepare.py] and the
    properties of its requirement preparer.

    The Python module drives a handful of collaborators that live in other
    modules ([pip.download], [pip.utils], [pip.req], the resolver,
    [pkg_resources], [os.path]).  They are kept abstract: every one of them
    is a field of an interface class below, and the preparer is written
    against those interfaces.  What [prepare.py] itself does (the order of
    the calls, the arguments it passes, the exceptions it raises and
    catches, the fields it mutates) is embedded statement by statement in
    an exception-and-state monad whose state carries the requirement
    object, the preparer object, the outside world and a chronological
    trace of log records and collaborator calls. *)

From Stdlib Require Import String Ascii List Bool.
Import ListNotations.
Open Scope string_scope.
Open Scope list_scope.

Set Implicit Arguments.

(** ** Data *)

(** [pip.index.Link]: what the preparer reads of a link.  [embedded_hashes]
    are the (algorithm, digest) pairs carried by the URL fragment. *)
Record Link := mkLink {
  url : string;
  scheme : string;
  is_wheel : bool;
  embedded_hashes : list (string * string)
}.

(** A [pkg_resources] distribution, as far as the preparer looks at it. *)
Record Dist := mkDist {
  project_name : string;
  version : string;
  location : string
}.

(** The hash set handed to the unpack step: a concrete set of accepted
    (algorithm, digest) pairs, or the sentinel [MissingHashes] of
    [pip.utils.hashes]. *)
Inductive HashSet :=
| Hashes (allowed : list (string * string))
| MissingHashes.

(** Truth value of a hash set ([Hashes.__nonzero__]): a concrete set is
    true when it accepts something.  The preparer only ever tests the value
    returned by [req.hashes]. *)
Definition hashes_truthy (h : HashSet) : bool :=
  match h with
  | Hashes [] => false
  | Hashes (_ :: _) => true
  | MissingHashes => true
  end.

(** [pip.req.InstallRequirement]: the attributes read or written here.
    [declared_hashes] is [options['hashes']]. *)
Record Req := mkReq {
  editable : bool;
  link : option Link;
  original_link : option Link;
  source_dir : option string;
  satisfied_by : option Dist;
  conflicts_with : option Dist;
  is_pinned : bool;
  declared_hashes : list (string * string)
}.

Definition set_satisfied_by (v : option Dist) (r : Req) : Req :=
  mkReq (editable r) (link r) (original_link r) (source_dir r) v
        (conflicts_with r) (is_pinned r) (declared_hashes r).

Definition set_conflicts_with (v : option Dist) (r : Req) : Req :=
  mkReq (editable r) (link r) (original_link r) (source_dir r)
        (satisfied_by r) v (is_pinned r) (declared_hashes r).

(** The resolver attributes read by [prepare_requirement].
    [require_hashes] is [None] until [resolve()] has set it. *)
Record Resolver := mkResolver {
  ignore_installed : bool;
  require_hashes : option bool;
  upgrade_strategy : string;
  use_user_site : bool
}.

(** [RequirementPreparer]'s attributes ([progress_bar] is an opaque handle
    that is only passed through). *)
Record Preparer := mkPreparer {
  src_dir : string;
  build_dir : string;
  download_dir : option string;
  wheel_download_dir : option string
}.

Definition set_download_dir (v : option string) (p : Preparer) : Preparer :=
  mkPreparer (src_dir p) (build_dir p) v (wheel_download_dir p).

(** The three concrete [DistAbstraction] classes.  Each instance holds a
    reference to the one requirement object being prepared, which is the
    [st_req] cell of the state below: the abstraction is a tag on that
    shared object, not a copy of it. *)
Inductive DistAbstraction := IsWheel | IsSDist | Installed.

(** Exceptions that can travel through [prepare.py]. *)
Inductive Exn :=
| InstallationError (msg : string)
| PreviousBuildDirError (msg : string)
| VcsHashUnsupported
| DirectoryUrlHashUnsupported
| HashUnpinned
| HashMissing (gotten_hash : string)
| HashMismatch (gotten_hash : string)
| HTTPError (detail : string)
| ConnectionError (detail : string)
| AssertionError (msg : string)
| AttributeError
| TypeError
| IndexError
| UnboundLocalError
| OtherError (name : string).

(** [except requests.HTTPError]. *)
Definition is_HTTPError (e : Exn) : bool :=
  match e with HTTPError _ => true | _ => false end.

(** [str(exc)] for the exception caught at the unpack step. *)
Definition str_exn (e : Exn) : string :=
  match e with
  | HTTPError d => d
  | _ => ""
  end.

Inductive Result (A : Type) :=
| Ok (a : A)
| Raise (e : Exn).
Arguments Ok {A} a.
Arguments Raise {A} e.

(** Python truth value of an optional string: [None] and [''] are false. *)
Definition truthy_str (o : option string) : bool :=
  match o with
  | Some s => negb (s =? "")
  | None => false
  end.

Definition truthy {A} (o : option A) : bool :=
  match o with Some _ => true | None => false end.

(** [os.path.join(a, b)] for a relative [b] (posixpath). *)
Definition ends_with_slash (a : string) : bool :=
  match get (String.length a - 1) a with
  | Some c => Ascii.eqb c "/"%char
  | None => false
  end.

Definition path_join (a b : string) : string :=
  if (a =? "") || ends_with_slash a then a ++ b else a ++ "/" ++ b.

(** [x in xs] on strings. *)
Definition str_in (x : string) (xs : list string) : bool :=
  existsb (String.eqb x) xs.

(** ** Trace *)

Inductive Level := INFO | DEBUG | CRITICAL.

(** One entry per log record and per call into a collaborator, with the
    arguments that [prepare.py] chose. *)
Inductive Event :=
| EvLog (lvl : Level) (fmt : string) (args : list string)
| EvIndent
| EvDedent
| EvCheckSkipInstalled
| EvIsUpgradeAllowed
| EvEnsureHasSourceDir (parent : string)
| EvUpdateEditable (obtain : bool)
| EvRunEggInfo
| EvAssertSourceMatchesVersion
| EvArchive (dir : option string)
| EvCheckIfExists
| EvPopulateLink (upgrade : bool) (req_hashes : bool)
| EvHashes (trust_internet : bool)
| EvUnpackUrl (l : Link) (loc : option string) (dl : option string)
              (autodelete : bool) (h : HashSet)
| EvGetDist
| EvAddDependencyLinks (links : list string).

(** ** Collaborators

    Code that [prepare.py] imports and calls.  None of it is part of the
    module; each class gathers what one imported module provides.  A method
    of the requirement or of the resolver may mutate the requirement and
    the world and may raise, so it is a function from both to a result and
    both; [unpack_url] is not handed the requirement and can only touch the
    world. *)

Definition Effect (World A : Type) : Type :=
  Req -> World -> Result A * Req * World.

(** [os.path], [pip.compat], [pip.utils], [pip.vcs], [pkg_resources]. *)
Class Platform (World : Type) := {
  path_exists : World -> string -> bool;
  expanduser : string -> string;
  normalize_path : string -> string;
  display_path : string -> string;
  dist_in_usersite : Dist -> bool;
  vcs_all_schemes : list string;
  find_distributions : World -> option string -> list Dist;
  has_metadata : World -> Dist -> string -> bool;
  get_metadata_lines : World -> Dist -> string -> list string;
  repr_dist : Dist -> string
}.

(** [pip.download]. *)
Class Download (World : Type) := {
  is_vcs_url : Link -> bool;
  is_file_url : Link -> bool;
  is_dir_url : World -> Link -> bool;
  url_to_path : string -> string;
  unpack_url : Link -> option string -> option string -> bool -> HashSet ->
               World -> Result unit * World
}.

(** Methods of [InstallRequirement] (and [str] of it and of a link). *)
Class Requirement (World : Type) := {
  str_req : Req -> string;
  str_link : Link -> string;
  hashes : bool -> Req -> HashSet;
  ensure_has_source_dir : string -> Effect World unit;
  update_editable : bool -> Effect World unit;
  run_egg_info : Effect World unit;
  assert_source_matches_version : Effect World unit;
  archive : option string -> Effect World unit;
  check_if_exists : Effect World bool;
  populate_link : bool -> bool -> Effect World unit;
  get_dist : Effect World Dist
}.

(** Methods of the resolver and of its finder. *)
Class ResolverOps (World : Type) := {
  check_skip_installed : Effect World (option string);
  is_upgrade_allowed : Effect World bool;
  add_dependency_links : list string -> World -> World
}.

(** ** The monad *)

Section Monad.
Context {World : Type}.

Record State := mkState {
  st_req : Req;
  st_self : Preparer;
  st_world : World;
  st_trace : list Event
}.

Definition M (A : Type) : Type := State -> Result A * State.

Definition ret {A} (a : A) : M A := fun s => (Ok a, s).

Definition raise {A} (e : Exn) : M A := fun s => (Raise e, s).

Definition bind {A B} (m : M A) (f : A -> M B) : M B :=
  fun s =>
    match m s with
    | (Ok a, s') => f a s'
    | (Raise e, s') => (Raise e, s')
    end.

(** [try: m  except <handles> as exc: h exc]. *)
Definition try_except {A} (m : M A) (handles : Exn -> bool)
           (h : Exn -> M A) : M A :=
  fun s =>
    match m s with
    | (Ok a, s') => (Ok a, s')
    | (Raise e, s') => if handles e then h e s' else (Raise e, s')
    end.

Definition emit (e : Event) : M unit :=
  fun s => (Ok tt, mkState (st_req s) (st_self s) (st_world s)
                           (st_trace s ++ [e])).

(** [with indent_log(): m] : the indentation is undone on every exit. *)
Definition indent_log {A} (m : M A) : M A :=
  fun s =>
    match emit EvIndent s with
    | (_, s1) =>
        match m s1 with
        | (r, s2) => (r, snd (emit EvDedent s2))
        end
    end.

Definition get_req : M Req := fun s => (Ok (st_req s), s).

Definition get_self : M Preparer := fun s => (Ok (st_self s), s).

Definition get_world : M World := fun s => (Ok (st_world s), s).

Definition put_req (r : Req) : M unit :=
  fun s => (Ok tt, mkState r (st_self s) (st_world s) (st_trace s)).

Definition put_self (p : Preparer) : M unit :=
  fun s => (Ok tt, mkState (st_req s) p (st_world s) (st_trace s)).

(** A call of a method of the requirement or of the resolver. *)
Definition call {A} (e : Event) (c : Effect World A) : M A :=
  fun s =>
    match c (st_req s) (st_world s) with
    | (r, q, w) => (r, mkState q (st_self s) w (st_trace s ++ [e]))
    end.

(** A call of a function that only sees the world. *)
Definition call_world {A} (e : Event) (c : World -> Result A * World)
  : M A :=
  fun s =>
    match c (st_world s) with
    | (r, w) => (r, mkState (st_req s) (st_self s) w (st_trace s ++ [e]))
    end.

Definition py_assert (b : bool) (msg : string) : M unit :=
  if b then ret tt else raise (AssertionError msg).

Definition log (lvl : Level) (fmt : string) (args : list string) : M unit :=
  emit (EvLog lvl fmt args).

End Monad.

Arguments State World : clear implicits.
Arguments M World A : clear implicits.

Declare Scope prep_scope.
Delimit Scope prep_scope with prep.
Notation "x <- c1 ;; c2" := (bind c1 (fun x => c2))
  (at level 100, c1 at next level, right associativity) : prep_scope.
Notation "c1 ;; c2" := (bind c1 (fun _ => c2))
  (at level 100, right associativity) : prep_scope.
Open Scope prep_scope.

(** ** [prepare.py] *)

Section Prepare.
Context {World : Type}.
Context {platform : Platform World} {download : Download World}.
Context {requirement : Requirement World} {resolver_ops : ResolverOps World}.

Local Abbreviation M := (M World).

(** *** Distribution abstractions (lines 25-105) *)

(** [make_abstract_dist(req)]. *)
Definition make_abstract_dist (req : Req) : DistAbstraction :=
  if editable req then IsSDist
  else match link req with
       | Some l => if is_wheel l then IsWheel else IsSDist
       | None => IsSDist
       end.

(** [list(xs)[0]]. *)
Definition first_item {A} (xs : list A) : M A :=
  match xs with
  | x :: _ => ret x
  | [] => raise IndexError
  end.

(** [abstract_dist.dist(finder)].  The result is optional because
    [Installed.dist] hands back [req.satisfied_by] as it is. *)
Definition dist (a : DistAbstraction) : M (option Dist) :=
  match a with
  | IsWheel =>
      req <- get_req ;;
      w <- get_world ;;
      d <- first_item (find_distributions w (source_dir req)) ;;
      ret (Some d)
  | IsSDist =>
      d <- call EvGetDist get_dist ;;
      w <- get_world ;;
      (if has_metadata w d "dependency_links.txt"
       then
         let lines := get_metadata_lines w d "dependency_links.txt" in
         call_world (EvAddDependencyLinks lines)
                    (fun w => (Ok tt, add_dependency_links lines w))
       else ret tt) ;;
      ret (Some d)
  | Installed =>
      req <- get_req ;;
      ret (satisfied_by req)
  end.

(** [abstract_dist.prep_for_dist()]. *)
Definition prep_for_dist (a : DistAbstraction) : M unit :=
  match a with
  | IsWheel => ret tt
  | IsSDist =>
      call EvRunEggInfo run_egg_info ;;
      call EvAssertSourceMatchesVersion assert_source_matches_version
  | Installed => ret tt
  end.

(** *** [RequirementPreparer] (lines 108-149) *)

(** [RequirementPreparer.__init__]. *)
Definition RequirementPreparer (build_dir : string)
           (download_dir : option string) (src_dir : string)
           (wheel_download_dir : option string) : Preparer :=
  let wheel_download_dir :=
    if truthy_str wheel_download_dir
    then option_map normalize_path wheel_download_dir
    else wheel_download_dir in
  mkPreparer src_dir build_dir download_dir wheel_download_dir.

(** The property [_download_should_save]. *)
Definition download_should_save : M bool :=
  self <- get_self ;;
  match download_dir self with
  | Some d =>
      if negb (d =? "") then
        let d' := expanduser d in
        put_self (set_download_dir (Some d') self) ;;
        w <- get_world ;;
        if path_exists w d' then ret true
        else
          log CRITICAL "Could not find download directory" [] ;;
          raise (InstallationError
                   ("Could not find or access download directory '"
                      ++ display_path d' ++ "'"))
      else ret false
  | None => ret false
  end.

(** *** [prepare_requirement] (lines 151-343) *)

Variable resolver : Resolver.

(** [if resolver.require_hashes]. *)
Definition hashes_required : bool :=
  match require_hashes resolver with
  | Some b => b
  | None => false
  end.

(** Lines 154-178: the opening log record, and for a requirement that is
    not editable the installed-state check of the resolver.  The local
    [skip_reason] is bound only when [ignore_installed] is false. *)
Definition announce : M unit :=
  req <- get_req ;;
  if editable req then
    log INFO "Obtaining %s" [str_req req]
  else
    py_assert (negb (truthy (satisfied_by req))) "" ;;
    skip_reason <-
      (if negb (ignore_installed resolver)
       then r <- call EvCheckSkipInstalled check_skip_installed ;;
            ret (Some r)
       else ret None) ;;
    req <- get_req ;;
    match satisfied_by req with
    | Some d =>
        match skip_reason with
        | None => raise UnboundLocalError
        | Some reason =>
            py_assert (truthy reason)
              ("_check_skip_installed returned None but "
                 ++ "req.satisfied_by is set to " ++ repr_dist d) ;;
            log INFO "Requirement %s: %s (%s)"
                [match reason with Some r => r | None => "" end;
                 str_req req; version d]
        end
    | None =>
        match link req with
        | Some l =>
            if scheme l =? "file" then
              let path := url_to_path (url l) in
              log INFO "Processing %s" [display_path path]
            else log INFO "Collecting %s" [str_req req]
        | None => log INFO "Collecting %s" [str_req req]
        end
    end.

(** Lines 187-199: the editable branch. *)
Definition editable_hash_conflict (req : Req) : Exn :=
  InstallationError
    ("The editable requirement " ++ str_req req
       ++ " cannot be installed when "
       ++ "requiring hashes, because there is no single file to "
       ++ "hash.").

Definition prepare_editable : M DistAbstraction :=
  req <- get_req ;;
  (if hashes_required then raise (editable_hash_conflict req)
   else ret tt) ;;
  self <- get_self ;;
  call (EvEnsureHasSourceDir (src_dir self))
       (ensure_has_source_dir (src_dir self)) ;;
  save <- download_should_save ;;
  call (EvUpdateEditable (negb save)) (update_editable (negb save)) ;;
  req <- get_req ;;
  let abstract_dist := make_abstract_dist req in
  prep_for_dist abstract_dist ;;
  save <- download_should_save ;;
  (if save then
     self <- get_self ;;
     call (EvArchive (download_dir self)) (archive (download_dir self))
   else ret tt) ;;
  call EvCheckIfExists check_if_exists ;;
  ret abstract_dist.

(** Lines 200-207: the requirement is already installed. *)
Definition prepare_installed : M DistAbstraction :=
  (if hashes_required then
     log DEBUG
         ("Since it is already installed, we are trusting this "
            ++ "package without checking its hash. To ensure a "
            ++ "completely repeatable environment, install into an "
            ++ "empty virtualenv.") []
   else ret tt) ;;
  ret Installed.

(** Lines 213-243: source directory, stale-build guard, link. *)
Definition previous_build_dir_error (req : Req) (dir : string) : Exn :=
  PreviousBuildDirError
    ("pip can't proceed with requirements '" ++ str_req req
       ++ "' due to a pre-existing build directory (" ++ dir
       ++ "). This is "
       ++ "likely due to a previous installation that failed"
       ++ ". pip is being responsible and not assuming it "
       ++ "can delete this. Please delete it and try again.").

Definition locate_link : M Link :=
  self <- get_self ;;
  call (EvEnsureHasSourceDir (build_dir self))
       (ensure_has_source_dir (build_dir self)) ;;
  req <- get_req ;;
  w <- get_world ;;
  match source_dir req with
  | None => raise TypeError
  | Some dir =>
      if path_exists w (path_join dir "setup.py")
      then raise (previous_build_dir_error req dir)
      else
        upgrade <- call EvIsUpgradeAllowed is_upgrade_allowed ;;
        call (EvPopulateLink upgrade hashes_required)
             (populate_link upgrade hashes_required) ;;
        req <- get_req ;;
        match link req with
        | Some l => ret l
        | None => raise (AssertionError "")
        end
  end.

(** Lines 249-268: what cannot be hashed, or is not pinned. *)
Definition check_hash_feasibility (l : Link) : M unit :=
  if hashes_required then
    w <- get_world ;;
    (if is_vcs_url l then raise VcsHashUnsupported
     else if is_file_url l && is_dir_url w l
          then raise DirectoryUrlHashUnsupported
          else ret tt) ;;
    req <- get_req ;;
    if negb (truthy (original_link req)) && negb (is_pinned req)
    then raise HashUnpinned
    else ret tt
  else ret tt.

(** Lines 269-276: the hash set for the unpack step. *)
Definition effective_hashes : M HashSet :=
  req <- get_req ;;
  let trust_internet := negb hashes_required in
  emit (EvHashes trust_internet) ;;
  let h := hashes trust_internet req in
  if hashes_required && negb (hashes_truthy h)
  then ret MissingHashes
  else ret h.

(** Lines 279-295: where the archive goes and whether the unpacked tree
    is deleted once pip has run. *)
Definition destination_and_retention (self : Preparer) (l : Link)
  : option string * bool :=
  let download_dir := download_dir self in
  let autodelete_unpacked := true in
  let download_dir :=
    if is_wheel l && truthy_str (wheel_download_dir self)
    then wheel_download_dir self
    else download_dir in
  let autodelete_unpacked :=
    if is_wheel l
    then (if truthy_str download_dir then true else false)
    else autodelete_unpacked in
  (download_dir, autodelete_unpacked).

Definition req_link : M Link :=
  req <- get_req ;;
  match link req with
  | Some l => ret l
  | None => raise AttributeError
  end.

Definition str_opt_link (o : option Link) : string :=
  match o with
  | Some l => str_link l
  | None => "None"
  end.

Definition http_installation_error (req : Req) (exc : Exn) : Exn :=
  InstallationError
    ("Could not install requirement " ++ str_req req ++ " because "
       ++ "of HTTP error " ++ str_exn exc ++ " for URL "
       ++ str_opt_link (link req)).

(** Lines 278-312: the unpack step and its handler. *)
Definition unpack_step (h : HashSet) : M unit :=
  try_except
    (self <- get_self ;;
     l <- req_link ;;
     let '(download_dir, autodelete_unpacked) :=
       destination_and_retention self l in
     req <- get_req ;;
     call_world
       (EvUnpackUrl l (source_dir req) download_dir autodelete_unpacked h)
       (unpack_url l (source_dir req) download_dir autodelete_unpacked h))
    is_HTTPError
    (fun exc =>
       req <- get_req ;;
       log CRITICAL
           ("Could not install requirement %s because " ++ "of error %s")
           [str_req req; str_exn exc] ;;
       raise (http_installation_error req exc)).

(** Lines 324-342: an installed distribution matches the unpacked one. *)
Definition should_modify : bool :=
  negb (upgrade_strategy resolver =? "to-satisfy-only")
  || ignore_installed resolver.

Definition resolve_conflict : M unit :=
  req <- get_req ;;
  match satisfied_by req with
  | Some d =>
      if should_modify then
        (if negb (use_user_site resolver && negb (dist_in_usersite d))
         then put_req (set_conflicts_with (satisfied_by req) req)
         else ret tt) ;;
        req <- get_req ;;
        put_req (set_satisfied_by None req)
      else
        log INFO
            ("Requirement already satisfied (use "
               ++ "--upgrade to upgrade): %s")
            [str_req req]
  | None => ret tt
  end.

(** Lines 313-323: abstraction, archive of a checkout, second look at
    what is installed. *)
Definition after_unpack : M DistAbstraction :=
  req <- get_req ;;
  let abstract_dist := make_abstract_dist req in
  prep_for_dist abstract_dist ;;
  save <- download_should_save ;;
  (if save then
     l <- req_link ;;
     if str_in (scheme l) vcs_all_schemes then
       self <- get_self ;;
       call (EvArchive (download_dir self)) (archive (download_dir self))
     else ret tt
   else ret tt) ;;
  (if negb (ignore_installed resolver)
   then call EvCheckIfExists check_if_exists ;; ret tt
   else ret tt) ;;
  ret abstract_dist.

(** Lines 213-342: the requirement has to be fetched. *)
Definition prepare_fresh : M DistAbstraction :=
  l <- locate_link ;;
  check_hash_feasibility l ;;
  h <- effective_hashes ;;
  unpack_step h ;;
  abstract_dist <- after_unpack ;;
  resolve_conflict ;;
  ret abstract_dist.

Definition prepare_requirement : M DistAbstraction :=
  announce ;;
  py_assert (truthy (require_hashes resolver))
            "This should have been set in resolve()" ;;
  indent_log
    (req <- get_req ;;
     if editable req then prepare_editable
     else if truthy (satisfied_by req) then prepare_installed
     else prepare_fresh).

End Prepare.

(** ** Collaborators as the specification describes them *)

Section SpecModel.
Context {World : Type}.

(** Modelled from the spec: [InstallRequirement.hashes] of [pip.req], which
    is not part of this module.  It collects the hash entries declared on
    the requirement; with [trust_internet] it also accepts the hashes
    embedded in the chosen link, otherwise only the declared ones count. *)
Definition hashes_for (trust_internet : bool) (req : Req) : HashSet :=
  Hashes (declared_hashes req
            ++ (if trust_internet
                then match link req with
                     | Some l => embedded_hashes l
                     | None => []
                     end
                else [])).

Definition with_hash_policy (R : Requirement World) : Requirement World :=
  {| str_req := @str_req _ R;
     str_link := @str_link _ R;
     hashes := hashes_for;
     ensure_has_source_dir := @ensure_has_source_dir _ R;
     update_editable := @update_editable _ R;
     run_egg_info := @run_egg_info _ R;
     assert_source_matches_version := @assert_source_matches_version _ R;
     archive := @archive _ R;
     check_if_exists := @check_if_exists _ R;
     populate_link := @populate_link _ R;
     get_dist := @get_dist _ R |}.

(** Modelled from the spec: the hash check of [pip.utils.hashes], which is
    not part of this module.  A concrete set accepts a digest iff it is a
    member; the missing-hash sentinel always fails, after the digest has
    been computed, and reports that digest ([HashMissing], as the comment
    at lines 272-275 of [prepare.py] names it). *)
Definition check_against (h : HashSet) (digest : string) : Result unit :=
  match h with
  | Hashes allowed =>
      if existsb (fun p => snd p =? digest) allowed
      then Ok tt
      else Raise (HashMismatch digest)
  | MissingHashes => Raise (HashMissing digest)
  end.

(** What brings the content to [location]: it may fail in any way and, when
    it succeeds, tells the digest of what it fetched. *)
Definition Fetch : Type :=
  Link -> option string -> option string -> bool ->
  World -> Result string * World.

(** Modelled from the spec: [pip.download.unpack_url], which is not part of
    this module: fetch the content, then check its digest against the hash
    set that the preparer passed. *)
Definition unpack_url_spec (fetch : Fetch) (l : Link)
           (location download_dir : option string) (autodelete : bool)
           (h : HashSet) (w : World) : Result unit * World :=
  match fetch l location download_dir autodelete w with
  | (Ok digest, w') => (check_against h digest, w')
  | (Raise e, w') => (Raise e, w')
  end.

Definition with_unpack (D : Download World) (fetch : Fetch)
  : Download World :=
  {| is_vcs_url := @is_vcs_url _ D;
     is_file_url := @is_file_url _ D;
     is_dir_url := @is_dir_url _ D;
     url_to_path := @url_to_path _ D;
     unpack_url := unpack_url_spec fetch |}.

End SpecModel.

(** ** Phases of a call, for stating where a run has got to *)

Section Phases.
Context {World : Type}.
Context {platform : Platform World} {download : Download World}.
Context {requirement : Requirement World} {resolver_ops : ResolverOps World}.
Variable resolver : Resolver.

Local Abbreviation M := (M World).

(** The state in which the body of [with indent_log()] starts, and the one
    left behind when the block is exited. *)
Definition indented (s : State World) : State World :=
  mkState (st_req s) (st_self s) (st_world s) (st_trace s ++ [EvIndent]).

Definition dedented (s : State World) : State World :=
  mkState (st_req s) (st_self s) (st_world s) (st_trace s ++ [EvDedent]).

(** The same state with more trace. *)
Definition logged (s : State World) (evs : list Event) : State World :=
  mkState (st_req s) (st_self s) (st_world s) (st_trace s ++ evs).

(** A result as it leaves [with indent_log()]. *)
Definition leaving {A} (out : Result A * State World)
  : Result A * State World :=
  (fst out, dedented (snd out)).

(** The call went past the opening lines and found a requirement that is
    neither editable nor installed: the third branch, lines 208-342. *)
Definition fresh_path (s0 s1 : State World) : Prop :=
  announce resolver s0 = (Ok tt, s1)
  /\ truthy (require_hashes resolver) = true
  /\ editable (st_req s1) = false
  /\ satisfied_by (st_req s1) = None.

(** Lines 278-342: the unpack step and everything after it. *)
Definition from_unpack (h : HashSet) : M DistAbstraction :=
  unpack_step h ;;
  abstract_dist <- after_unpack resolver ;;
  resolve_conflict resolver ;;
  ret abstract_dist.

(** Lines 269-342: everything after the feasibility checks. *)
Definition from_hashes : M DistAbstraction :=
  h <- effective_hashes resolver ;;
  from_unpack h.

(** The requirement as lines 329-336 leave it when [d] is installed and
    may be replaced. *)
Definition superseding (d : Dist) (req : Req) : Req :=
  set_satisfied_by None
    (if negb (use_user_site resolver && negb (dist_in_usersite d))
     then set_conflicts_with (Some d) req
     else req).


(** Lines 213-276: everything before the unpack step. *)
Definition before_unpack : M HashSet :=
  l <- locate_link resolver ;;
  check_hash_feasibility resolver l ;;
  effective_hashes resolver.

(** Lines 213-323: everything before the conflict resolution. *)
Definition acquire : M DistAbstraction :=
  h <- before_unpack ;;
  unpack_step h ;;
  after_unpack resolver.

(** Calls that go to the index, the network or a version-control system. *)
Definition fetches (e : Event) : bool :=
  match e with
  | EvPopulateLink _ _ => true
  | EvUnpackUrl _ _ _ _ _ => true
  | EvUpdateEditable _ => true
  | EvArchive _ => true
  | _ => false
  end.

(** Calls that create, fill or change source directories. *)
Definition touches_sources (e : Event) : bool :=
  match e with
  | EvEnsureHasSourceDir _ => true
  | EvUpdateEditable _ => true
  | EvUnpackUrl _ _ _ _ _ => true
  | EvRunEggInfo => true
  | _ => false
  end.

(** The state after a call, recorded as [e], that left the world as [w]. *)
Definition after_call (s : State World) (e : Event) (w : World)
  : State World :=
  mkState (st_req s) (st_self s) w (st_trace s ++ [e]).

(** A computation whose every run only adds events satisfying [P] to the
    trace. *)
Definition emits_only {A} (P : Event -> bool) (m : M A) : Prop :=
  forall s, exists tr,
    st_trace (snd (m s)) = st_trace s ++ tr /\ forallb P tr = true.

(** The auto-delete flag for a link that is not a wheel, read the way the
    specification words it: deleted unless the download directory is set. *)
Definition sdist_autodelete_as_specified (self : Preparer) : bool :=
  negb (truthy_str (download_dir self)).

(** Calls that resolve a link or bring an archive in. *)
Definition resolves_or_unpacks (e : Event) : bool :=
  match e with
  | EvIsUpgradeAllowed => true
  | EvPopulateLink _ _ => true
  | EvHashes _ => true
  | EvUnpackUrl _ _ _ _ _ => true
  | _ => false
  end.

(** Calls that look at what is installed. *)
Definition consults_installed (e : Event) : bool :=
  match e with
  | EvCheckSkipInstalled => true
  | EvCheckIfExists => true
  | _ => false
  end.

(** A computation whose every run relates the state it starts from to the
    state it ends in by [Q]. *)
Definition keeps {A} (Q : State World -> State World -> Prop) (m : M A)
  : Prop :=
  forall s, Q s (snd (m s)).

(** What a call may do to the preparer object: the directories it was
    built with stay, and [download_dir] is only ever replaced by its own
    user-expanded form. *)
Definition same_configuration (s s' : State World) : Prop :=
  src_dir (st_self s') = src_dir (st_self s)
  /\ build_dir (st_self s') = build_dir (st_self s)
  /\ wheel_download_dir (st_self s') = wheel_download_dir (st_self s)
  /\ exists n,
       download_dir (st_self s')
       = option_map (Nat.iter n expanduser) (download_dir (st_self s)).

(** The [unpack_url] call that the preparer makes for link [l] and hash set
    [h] from state [s]. *)
Definition unpack_call (s : State World) (l : Link) (h : HashSet) : Event :=
  EvUnpackUrl l (source_dir (st_req s))
              (fst (destination_and_retention (st_self s) l))
              (snd (destination_and_retention (st_self s) l)) h.

End Phases.

(** ** A concrete environment

    A small world in which the preparer can be run: the world is the list
    of paths that exist, downloads succeed except for two hosts, and one
    distribution is installed when [site-packages/demo] exists. *)

Module Demo.

Definition World : Type := list string.

Definition set_link (v : option Link) (r : Req) : Req :=
  mkReq (editable r) v (original_link r) (source_dir r) (satisfied_by r)
        (conflicts_with r) (is_pinned r) (declared_hashes r).

Definition set_source_dir (v : option string) (r : Req) : Req :=
  mkReq (editable r) (link r) (original_link r) v (satisfied_by r)
        (conflicts_with r) (is_pinned r) (declared_hashes r).

Definition installed : Dist :=
  mkDist "demo" "1.0" "/usr/lib/python3/site-packages".

Definition built : Dist :=
  mkDist "demo" "2.0" "/build/demo".

Definition sdist_link : Link :=
  mkLink "https://pypi.invalid/demo-2.0.tar.gz" "https" false
         [("sha256", "5feceb66ffc86f38d952786c6d696c79")].

Definition wheel_link : Link :=
  mkLink "https://pypi.invalid/demo-2.0-py3-none-any.whl" "https" true [].

Definition vcs_link : Link :=
  mkLink "git+https://code.invalid/demo.git" "git+https" false [].

Definition dir_link : Link :=
  mkLink "file:///work/demo" "file" false [].

Definition missing_link : Link :=
  mkLink "https://pypi.invalid/missing-1.0.tar.gz" "https" false [].

Definition unreachable_link : Link :=
  mkLink "https://unreachable.invalid/demo-2.0.tar.gz" "https" false [].

Definition platform : Platform World :=
  {| path_exists := fun w p => str_in p w;
     expanduser := fun p => p;
     normalize_path := fun p => p;
     display_path := fun p => p;
     dist_in_usersite := fun d => prefix "/home/user/.local" (location d);
     vcs_all_schemes := ["git"; "git+https"; "git+ssh"; "hg"; "svn"; "bzr"];
     find_distributions := fun w dir =>
       match dir with
       | Some d => if str_in (d ++ "/demo-2.0.dist-info")%string w
                   then [built] else []
       | None => []
       end;
     has_metadata := fun _ _ _ => false;
     get_metadata_lines := fun _ _ _ => [];
     repr_dist := fun d => (project_name d ++ " " ++ version d)%string |}.

Definition strip_file_scheme (u : string) : string :=
  substring 7 (String.length u - 7) u.

Definition download : Download World :=
  {| is_vcs_url := fun l =>
       str_in (scheme l) ["git"; "git+https"; "git+ssh"; "hg"; "svn"; "bzr"];
     is_file_url := fun l => prefix "file:" (url l);
     is_dir_url := fun w l =>
       str_in (strip_file_scheme (url l) ++ "/")%string w;
     url_to_path := strip_file_scheme;
     unpack_url := fun l location _ _ _ w =>
       if url l =? url missing_link
       then (Raise (HTTPError "404 Client Error: Not Found"), w)
       else if url l =? url unreachable_link
       then (Raise (ConnectionError "Connection refused"), w)
       else (Ok tt,
             match location with
             | Some d => (d ++ "/PKG-INFO")%string :: w
             | None => w
             end) |}.

Definition unchanged {A} (a : A) : Effect World A :=
  fun req w => (Ok a, req, w).

Definition requirement : Requirement World :=
  {| str_req := fun r =>
       match link r with Some l => url l | None => "demo" end;
     str_link := url;
     hashes := hashes_for;
     ensure_has_source_dir := fun parent r w =>
       match source_dir r with
       | Some _ => (Ok tt, r, w)
       | None => (Ok tt, set_source_dir (Some (parent ++ "/demo")%string) r,
                  (parent ++ "/demo/")%string :: w)
       end;
     update_editable := fun _ => unchanged tt;
     run_egg_info := unchanged tt;
     assert_source_matches_version := unchanged tt;
     archive := fun _ => unchanged tt;
     check_if_exists := fun r w =>
       if str_in "site-packages/demo" w
          && match source_dir r with
             | Some d => str_in (d ++ "/PKG-INFO")%string w
             | None => false
             end
       then (Ok true, set_satisfied_by (Some installed) r, w)
       else (Ok false, r, w);
     populate_link := fun _ _ r w =>
       match link r with
       | Some _ => (Ok tt, r, w)
       | None => (Ok tt, set_link (Some sdist_link) r, w)
       end;
     get_dist := unchanged built |}.

Definition resolver_ops : ResolverOps World :=
  {| check_skip_installed := unchanged None;
     is_upgrade_allowed := unchanged false;
     add_dependency_links := fun _ w => w |}.

(** A fetch that always succeeds, for [unpack_url_spec]. *)
Definition fetch : @Fetch World :=
  fun _ location _ _ w =>
    (Ok "2cf24dba5fb0a30e26e83b2ac5b9e29e",
     match location with
     | Some d => (d ++ "/PKG-INFO")%string :: w
     | None => w
     end).

Definition preparer : Preparer :=
  mkPreparer "/src" "/build" None None.

Definition saving_preparer : Preparer :=
  mkPreparer "/src" "/build" (Some "/downloads") None.

(** A requirement named on the command line, nothing known yet. *)
Definition named : Req :=
  mkReq false None None None None None true [].

Definition with_link (l : Link) : Req :=
  mkReq false (Some l) (Some l) None None None true [].

Definition unpinned : Req :=
  mkReq false None None None None None false [].

Definition checkout : Req :=
  mkReq true (Some vcs_link) (Some vcs_link) None None None false [].

Definition start (r : Req) (p : Preparer) (w : World) : State World :=
  mkState r p w [].

Definition hashing : Resolver := mkResolver true (Some true) "to-satisfy-only" false.

Definition plain : Resolver := mkResolver true (Some false) "to-satisfy-only" false.

Definition eager : Resolver := mkResolver false (Some false) "eager" false.

Definition eager_user : Resolver := mkResolver false (Some false) "eager" true.

Definition lazy_ : Resolver :=
  mkResolver false (Some false) "to-satisfy-only" false.

(** [prepare_requirement] in this environment. *)
Definition prepare (resolver : Resolver) : M World DistAbstraction :=
  @prepare_requirement World platform download requirement resolver_ops
                       resolver.

(** The same with [unpack_url] as the specification describes it. *)
Definition prepare_checked (resolver : Resolver) : M World DistAbstraction :=
  @prepare_requirement World platform (with_unpack download fetch)
                       requirement resolver_ops resolver.

(** The same requirement methods with another [populate_link]. *)
Definition requirement_with (pl : bool -> bool -> Effect World unit)
  : Requirement World :=
  {| str_req := @str_req _ requirement;
     str_link := @str_link _ requirement;
     hashes := @hashes _ requirement;
     ensure_has_source_dir := @ensure_has_source_dir _ requirement;
     update_editable := @update_editable _ requirement;
     run_egg_info := @run_egg_info _ requirement;
     assert_source_matches_version :=
       @assert_source_matches_version _ requirement;
     archive := @archive _ requirement;
     check_if_exists := @check_if_exists _ requirement;
     populate_link := pl;
     get_dist := @get_dist _ requirement |}.

(** The index cannot be reached. *)
Definition offline : Requirement World :=
  requirement_with
    (fun _ _ r w => (Raise (HTTPError "503 Server Error"), r, w)).

(** A finder that returns without setting a link. *)
Definition linkless : Requirement World :=
  requirement_with (fun _ _ => unchanged tt).

(** A resolver whose check finds the distribution installed when
    [site-packages/demo] exists. *)
Definition finding_installed : ResolverOps World :=
  {| check_skip_installed := fun r w =>
       if str_in "site-packages/demo" w
       then (Ok (Some "already satisfied"),
             set_satisfied_by (Some installed) r, w)
       else (Ok None, r, w);
     is_upgrade_allowed := unchanged false;
     add_dependency_links := fun _ w => w |}.

(** A resolver on which [resolve()] has not run. *)
Definition unset : Resolver :=
  mkResolver true None "to-satisfy-only" false.

(** Hashes required, installed distributions looked at. *)
Definition strict : Resolver :=
  mkResolver false (Some true) "to-satisfy-only" false.

(** The states a run goes through: after the opening lines, after the link
    is known, before the unpack step, before the conflict resolution. *)
Definition announced (resolver : Resolver) (s : State World) : State World :=
  snd (@announce World platform download requirement resolver_ops
                 resolver s).

Definition located (resolver : Resolver) (s : State World) : State World :=
  snd (@locate_link World platform requirement resolver_ops resolver
                    (indented (announced resolver s))).

Definition hashed (resolver : Resolver) (s : State World) : State World :=
  snd (@before_unpack World platform download requirement resolver_ops
                      resolver (indented (announced resolver s))).

Definition acquired (resolver : Resolver) (s : State World) : State World :=
  snd (@acquire World platform download requirement resolver_ops
                resolver (indented (announced resolver s))).

(** Starting points. *)
Definition from_vcs : State World :=
  start (with_link vcs_link) preparer [].

Definition from_sdist : State World :=
  start (with_link sdist_link) preparer [].

Definition from_sdist_saving : State World :=
  start (with_link sdist_link) saving_preparer ["/downloads"].

Definition from_wheel : State World :=
  start (with_link wheel_link) preparer [].

Definition from_checkout : State World :=
  start checkout preparer [].

Definition over_installed : State World :=
  start (with_link sdist_link) preparer ["site-packages/demo"].

Definition over_stale_build : State World :=
  start (with_link sdist_link) preparer ["/build/demo/setup.py"].

Definition from_missing : State World :=
  start (with_link missing_link) preparer [].

Definition from_unreachable : State World :=
  start (with_link unreachable_link) preparer [].

Definition from_name : State World :=
  start named preparer [].

Definition from_checkout_saving : State World :=
  start checkout saving_preparer [].

Definition from_sdist_unsaved : State World :=
  start (with_link sdist_link) saving_preparer [].

(** An unpacked wheel directory in which nothing is found. *)
Definition empty_wheel_dir : State World :=
  start (set_source_dir (Some "/build/demo") (with_link wheel_link))
        preparer ["/build/demo/"].

End Demo.

(** ** Stepping through a run *)

Section Steps.
Context {World : Type}.

Local Abbreviation M := (M World).

Lemma bind_ok A B (m : M A) (f : A -> M B) s a s' :
  m s = (Ok a, s') -> bind m f s = f a s'.
Proof. unfold bind; intros ->; reflexivity. Qed.

Lemma bind_raise A B (m : M A) (f : A -> M B) s e s' :
  m s = (Raise e, s') -> bind m f s = (Raise e, s').
Proof. unfold bind; intros ->; reflexivity. Qed.

Lemma bind_assoc A B C (m : M A) (f : A -> M B) (g : B -> M C) s :
  bind (bind m f) g s = bind m (fun a => bind (f a) g) s.
Proof.
  unfold bind; destruct (m s) as [[a|e] s']; reflexivity.
Qed.

Lemma bind_cong A B (m : M A) (f g : A -> M B) s :
  (forall a s', f a s' = g a s') -> bind m f s = bind m g s.
Proof.
  intros H; unfold bind; destruct (m s) as [[a|e] s']; auto.
Qed.

Lemma bind_inv_ok A B (m : M A) (f : A -> M B) s b s' :
  bind m f s = (Ok b, s') ->
  exists a s1, m s = (Ok a, s1) /\ f a s1 = (Ok b, s').
Proof.
  unfold bind; destruct (m s) as [[a|e] s1]; intros E.
  - exists a, s1; split; [reflexivity | exact E].
  - discriminate E.
Qed.

Lemma indent_log_leaving A (m : M A) s :
  indent_log m s = leaving (m (indented s)).
Proof.
  unfold indent_log, leaving, emit, indented, dedented; cbn.
  destruct (m _) as [r s']; reflexivity.
Qed.

Lemma logged_app (s : State World) evs evs' :
  logged (logged s evs) evs' = logged s (evs ++ evs').
Proof. unfold logged; cbn; rewrite app_assoc; reflexivity. Qed.

(** *** What a computation adds to the trace *)

Section Footprint.
Variable P : Event -> bool.

Lemma emits_ret A (a : A) : emits_only P (ret a : M A).
Proof. intros s; exists []; cbn; rewrite app_nil_r; auto. Qed.

Lemma emits_raise A e : emits_only P (raise e : M A).
Proof. intros s; exists []; cbn; rewrite app_nil_r; auto. Qed.

Lemma emits_get_req : emits_only P (get_req : M Req).
Proof. intros s; exists []; cbn; rewrite app_nil_r; auto. Qed.

Lemma emits_get_self : emits_only P (get_self : M Preparer).
Proof. intros s; exists []; cbn; rewrite app_nil_r; auto. Qed.

Lemma emits_get_world : emits_only P (get_world : M World).
Proof. intros s; exists []; cbn; rewrite app_nil_r; auto. Qed.

Lemma emits_put_req r : emits_only P (put_req r : M unit).
Proof. intros s; exists []; cbn; rewrite app_nil_r; auto. Qed.

Lemma emits_put_self p : emits_only P (put_self p : M unit).
Proof. intros s; exists []; cbn; rewrite app_nil_r; auto. Qed.

Lemma emits_emit e : P e = true -> emits_only P (emit e : M unit).
Proof. intros H s; exists [e]; cbn; rewrite H; auto. Qed.

Lemma emits_log lvl fmt args :
  P (EvLog lvl fmt args) = true -> emits_only P (log lvl fmt args : M unit).
Proof. apply emits_emit. Qed.

Lemma emits_call A e (c : Effect World A) :
  P e = true -> emits_only P (call e c).
Proof.
  intros H s; exists [e]; unfold call.
  destruct (c _ _) as [[r q] w]; cbn; rewrite H; auto.
Qed.

Lemma emits_call_world A e (c : World -> Result A * World) :
  P e = true -> emits_only P (call_world e c).
Proof.
  intros H s; exists [e]; unfold call_world.
  destruct (c _) as [r w]; cbn; rewrite H; auto.
Qed.

Lemma emits_py_assert b msg : emits_only P (py_assert b msg : M unit).
Proof. destruct b; [apply emits_ret | apply emits_raise]. Qed.

Lemma emits_bind A B (m : M A) (f : A -> M B) :
  emits_only P m -> (forall a, emits_only P (f a)) ->
  emits_only P (bind m f).
Proof.
  intros Hm Hf s; unfold bind.
  destruct (Hm s) as (tr & Ht & Hp).
  destruct (m s) as [[a|e] s1]; cbn in Ht.
  - destruct (Hf a s1) as (tr' & Ht' & Hp').
    exists (tr ++ tr'); rewrite Ht', Ht, app_assoc, forallb_app, Hp, Hp'.
    auto.
  - exists tr; auto.
Qed.

Lemma emits_try_except A (m : M A) handles (h : Exn -> M A) :
  emits_only P m -> (forall e, emits_only P (h e)) ->
  emits_only P (try_except m handles h).
Proof.
  intros Hm Hh s; unfold try_except.
  destruct (Hm s) as (tr & Ht & Hp).
  destruct (m s) as [[a|e] s1]; cbn in Ht.
  - exists tr; auto.
  - destruct (handles e).
    + destruct (Hh e s1) as (tr' & Ht' & Hp').
      exists (tr ++ tr'); rewrite Ht', Ht, app_assoc, forallb_app, Hp, Hp'.
      auto.
    + exists tr; auto.
Qed.

Lemma emits_indent_log A (m : M A) :
  P EvIndent = true -> P EvDedent = true ->
  emits_only P m -> emits_only P (indent_log m).
Proof.
  intros Hi Hd Hm s; rewrite indent_log_leaving.
  destruct (Hm (indented s)) as (tr & Ht & Hp).
  exists ([EvIndent] ++ tr ++ [EvDedent]).
  unfold leaving, dedented; cbn in *; rewrite Ht.
  rewrite !forallb_app, Hp; cbn; rewrite Hi, Hd.
  rewrite <- !app_assoc; auto.
Qed.

End Footprint.

End Steps.

Create HintDb footprint.

#[local] Hint Resolve emits_ret emits_raise emits_get_req emits_get_self
  emits_get_world emits_put_req emits_put_self emits_py_assert : footprint.

(** Walks through a computation built from the monad's operations. *)
Ltac footprint :=
  repeat first
    [ apply emits_bind; [| intros ? ]
    | apply emits_try_except; [| intros ? ]
    | solve [ auto with footprint ]
    | apply emits_log; reflexivity
    | apply emits_emit; reflexivity
    | apply emits_call; reflexivity
    | apply emits_call_world; reflexivity
    | match goal with
      | |- emits_only _ (if ?b then _ else _) => destruct b
      | |- emits_only _ (match ?x with _ => _ end) => destruct x
      | |- emits_only _ (let '(_, _) := ?x in _) => destruct x
      end ].

Arguments bind_ok {World A B m} f {s a s'} _.
Arguments bind_raise {World A B m} f {s e s'} _.
Arguments bind_inv_ok {World A B m f s b s'} _.

(** ** Properties of [prepare_requirement] *)

Section Properties.
Context {World : Type}.
Context {platform : Platform World} {download : Download World}.
Context {requirement : Requirement World} {resolver_ops : ResolverOps World}.
Variable resolver : Resolver.

Local Abbreviation M := (M World).
Local Abbreviation prepare := (prepare_requirement resolver).

Lemma prepare_fresh_path s0 s1 :
  fresh_path resolver s0 s1 ->
  prepare s0 = leaving (prepare_fresh resolver (indented s1)).
Proof.
  intros (Ha & Hr & He & Hs).
  unfold prepare_requirement.
  rewrite (bind_ok _ Ha).
  unfold py_assert; rewrite Hr.
  rewrite <- indent_log_leaving.
  unfold indent_log, bind, ret, get_req, emit; cbn.
  rewrite He, Hs; reflexivity.
Qed.

Lemma hashes_required_true :
  require_hashes resolver = Some true -> hashes_required resolver = true.
Proof. unfold hashes_required; intros ->; reflexivity. Qed.

(** C3.  An editable requirement prepared while hashes are required is
    refused with the error of lines 189-192 (an [InstallationError] saying
    that an editable requirement cannot be installed when requiring
    hashes).  Nothing happened before it: the requirement, the preparer and
    the world are as they were, and the trace has gained three log records
    and no call of any collaborator, so no source directory was made, no
    checkout updated and nothing fetched. *)
Theorem editable_refused_before_any_access s0 :
  editable (st_req s0) = true ->
  require_hashes resolver = Some true ->
  let news := [EvLog INFO "Obtaining %s" [str_req (st_req s0)];
               EvIndent; EvDedent] in
  prepare s0 = (Raise (editable_hash_conflict (st_req s0)), logged s0 news)
  /\ forallb (fun e => negb (fetches e || touches_sources e)) news = true.
Proof.
  intros He Hr news; split; [| reflexivity].
  unfold prepare_requirement, announce, bind, get_req, log, emit.
  rewrite He; cbn.
  unfold py_assert; rewrite Hr; cbn.
  rewrite He.
  unfold prepare_editable, bind, get_req; cbn.
  rewrite (hashes_required_true Hr); cbn.
  unfold logged, news; cbn.
  rewrite <- !app_assoc; reflexivity.
Qed.

(** The opening lines only log and ask the resolver whether the requirement
    is installed. *)
Lemma announce_fetches_nothing :
  emits_only (fun e => negb (fetches e)) (announce resolver).
Proof. unfold announce; footprint. Qed.

(** C8.  On the third branch, when the source directory that
    [ensure_has_source_dir] settled on already holds a [setup.py], the call
    fails with [PreviousBuildDirError].  The only collaborator called after
    the opening lines is [ensure_has_source_dir]: the link is not
    populated and nothing is fetched during the whole call, and the world
    is left as [ensure_has_source_dir] returned it, with the directory and
    its [setup.py] still there. *)
Theorem stale_build_dir_refused s0 s1 q w dir :
  fresh_path resolver s0 s1 ->
  ensure_has_source_dir (build_dir (st_self s1)) (st_req s1) (st_world s1)
    = (Ok tt, q, w) ->
  source_dir q = Some dir ->
  path_exists w (path_join dir "setup.py") = true ->
  let final :=
    mkState q (st_self s1) w
            (st_trace s1
               ++ [EvIndent; EvEnsureHasSourceDir (build_dir (st_self s1));
                   EvDedent]) in
  prepare s0 = (Raise (previous_build_dir_error q dir), final)
  /\ (exists tr, st_trace final = st_trace s0 ++ tr
                 /\ forallb (fun e => negb (fetches e)) tr = true)
  /\ path_exists (st_world final) (path_join dir "setup.py") = true.
Proof.
  intros Hf He Hd Hp final; split; [| split].
  - rewrite (prepare_fresh_path Hf).
    unfold prepare_fresh, locate_link, bind, get_self, get_req, get_world,
      call, indented; cbn.
    rewrite He; cbn. rewrite Hd, Hp; cbn.
    unfold leaving, dedented, final; cbn.
    rewrite <- !app_assoc; reflexivity.
  - destruct Hf as (Ha & _).
    destruct (announce_fetches_nothing s0) as (tr & Ht & Hn).
    rewrite Ha in Ht; cbn in Ht.
    exists (tr ++ [EvIndent; EvEnsureHasSourceDir (build_dir (st_self s1));
                   EvDedent]).
    unfold final; cbn; rewrite Ht, <- app_assoc; split; [reflexivity |].
    rewrite forallb_app, Hn; reflexivity.
  - exact Hp.
Qed.

Lemma prepare_fresh_from_link s l s2 :
  locate_link resolver s = (Ok l, s2) ->
  prepare_fresh resolver s
  = bind (check_hash_feasibility resolver l)
         (fun _ => from_hashes resolver) s2.
Proof.
  intros Hl; unfold prepare_fresh.
  rewrite (bind_ok _ Hl); reflexivity.
Qed.

(** C1.  On the third branch, once [populate_link] has returned and the
    link [l] is known: with hashes required, a version-control link is
    refused with [VcsHashUnsupported]; otherwise a file link to a directory
    with [DirectoryUrlHashUnsupported]; otherwise a requirement without
    [original_link] that is not pinned with [HashUnpinned]; otherwise the
    call goes on to the hash set.  Without required hashes the call always
    goes on, whatever the link and the requirement are. *)
Theorem hash_feasibility_order s0 s1 l s2 :
  fresh_path resolver s0 s1 ->
  locate_link resolver (indented s1) = (Ok l, s2) ->
  let dir_url := is_file_url l && is_dir_url (st_world s2) l in
  let unpinned :=
    negb (truthy (original_link (st_req s2))) && negb (is_pinned (st_req s2))
  in
  (hashes_required resolver = true ->
     (is_vcs_url l = true ->
        prepare s0 = (Raise VcsHashUnsupported, dedented s2))
     /\ (is_vcs_url l = false -> dir_url = true ->
           prepare s0 = (Raise DirectoryUrlHashUnsupported, dedented s2))
     /\ (is_vcs_url l = false -> dir_url = false -> unpinned = true ->
           prepare s0 = (Raise HashUnpinned, dedented s2))
     /\ (is_vcs_url l = false -> dir_url = false -> unpinned = false ->
           prepare s0 = leaving (from_hashes resolver s2)))
  /\ (hashes_required resolver = false ->
        prepare s0 = leaving (from_hashes resolver s2)).
Proof.
  intros Hf Hl dir_url unpinned.
  rewrite (prepare_fresh_path Hf), (prepare_fresh_from_link _ Hl).
  unfold check_hash_feasibility, bind, get_world, get_req.
  split; intros Hr; rewrite Hr; [| reflexivity].
  repeat split.
  - intros ->; reflexivity.
  - intros -> Hd; fold dir_url; rewrite Hd; reflexivity.
  - intros -> Hd Hu; fold dir_url; rewrite Hd; cbn.
    fold unpinned; rewrite Hu; reflexivity.
  - intros -> Hd Hu; fold dir_url; rewrite Hd; cbn.
    fold unpinned; rewrite Hu; reflexivity.
Qed.

Lemma prepare_fresh_acquire s :
  prepare_fresh resolver s
  = bind (acquire resolver)
         (fun abstract_dist =>
            bind (resolve_conflict resolver) (fun _ => ret abstract_dist)) s.
Proof.
  unfold prepare_fresh, acquire, before_unpack.
  repeat (rewrite ?bind_assoc;
          first [reflexivity | apply bind_cong; intros]).
Qed.

Lemma make_abstract_dist_fresh req : make_abstract_dist req <> Installed.
Proof.
  unfold make_abstract_dist.
  destruct (editable req); [discriminate |].
  destruct (link req) as [l|]; [destruct (is_wheel l) |]; discriminate.
Qed.

Lemma after_unpack_result s abstract_dist s' :
  after_unpack resolver s = (Ok abstract_dist, s') ->
  abstract_dist = make_abstract_dist (st_req s).
Proof.
  unfold after_unpack; intros H.
  apply bind_inv_ok in H as (req & s1 & Hg & H).
  unfold get_req in Hg; inversion Hg; subst req s1; clear Hg.
  do 4 (apply bind_inv_ok in H as (? & ? & _ & H)).
  unfold ret in H; inversion H; reflexivity.
Qed.

Lemma acquire_result s abstract_dist s' :
  acquire resolver s = (Ok abstract_dist, s') ->
  abstract_dist <> Installed.
Proof.
  unfold acquire; intros H.
  do 2 (apply bind_inv_ok in H as (? & ? & _ & H)).
  rewrite (after_unpack_result _ H).
  apply make_abstract_dist_fresh.
Qed.

Lemma resolve_conflict_found s d :
  satisfied_by (st_req s) = Some d ->
  resolve_conflict resolver s
  = if should_modify resolver
    then (Ok tt, mkState (superseding resolver d (st_req s)) (st_self s) (st_world s)
                         (st_trace s))
    else (Ok tt,
          logged s [EvLog INFO
                          ("Requirement already satisfied (use "
                             ++ "--upgrade to upgrade): %s")
                          [str_req (st_req s)]]).
Proof.
  intros Hs; unfold resolve_conflict, bind, get_req, superseding.
  rewrite Hs.
  destruct (should_modify resolver); [| reflexivity].
  destruct (negb (use_user_site resolver && negb (dist_in_usersite d)));
    reflexivity.
Qed.

Lemma prepare_after_acquire s0 s1 abstract_dist s2 :
  fresh_path resolver s0 s1 ->
  acquire resolver (indented s1) = (Ok abstract_dist, s2) ->
  prepare s0
  = leaving (bind (resolve_conflict resolver)
                  (fun _ => ret abstract_dist) s2).
Proof.
  intros Hf Ha.
  rewrite (prepare_fresh_path Hf), prepare_fresh_acquire.
  rewrite (bind_ok _ Ha); reflexivity.
Qed.

(** C4.  On the third branch, when the second look at the installed state
    (line 323) leaves a matching distribution [d] in [satisfied_by]:
    [should_modify] is [upgrade_strategy != "to-satisfy-only" or
    ignore_installed]; when it is true, [satisfied_by] is cleared in every
    case and, unless the install is a user-site one while [d] is not in the
    user site, [conflicts_with] is set to [d]; when it is false, the
    requirement is not changed at all and the only effect is the log record
    "Requirement already satisfied".  Either way the call returns the
    abstraction that was built from the unpacked requirement, which is
    never the [Installed] one. *)
Theorem conflict_resolution s0 s1 abstract_dist s2 d :
  fresh_path resolver s0 s1 ->
  acquire resolver (indented s1) = (Ok abstract_dist, s2) ->
  satisfied_by (st_req s2) = Some d ->
  let final := snd (prepare s0) in
  fst (prepare s0) = Ok abstract_dist
  /\ abstract_dist <> Installed
  /\ should_modify resolver
     = (negb (upgrade_strategy resolver =? "to-satisfy-only")
        || ignore_installed resolver)
  /\ (should_modify resolver = true ->
        satisfied_by (st_req final) = None
        /\ (use_user_site resolver && negb (dist_in_usersite d) = false ->
              conflicts_with (st_req final) = Some d)
        /\ final = dedented (mkState (superseding resolver d (st_req s2))
                                     (st_self s2) (st_world s2)
                                     (st_trace s2)))
  /\ (should_modify resolver = false ->
        st_req final = st_req s2
        /\ final
           = dedented
               (logged s2 [EvLog INFO
                                 ("Requirement already satisfied (use "
                                    ++ "--upgrade to upgrade): %s")
                                 [str_req (st_req s2)]])).
Proof.
  intros Hf Ha Hs final.
  assert (Hp := prepare_after_acquire Hf Ha).
  unfold bind in Hp; rewrite (resolve_conflict_found _ Hs) in Hp.
  unfold final; clear final.
  split; [| split; [| split; [| split]]].
  - rewrite Hp; destruct (should_modify resolver); reflexivity.
  - exact (acquire_result _ Ha).
  - reflexivity.
  - intros Hm; rewrite Hm in Hp; rewrite Hp; cbn.
    split; [reflexivity | split; [| reflexivity]].
    intros Hg; unfold superseding; rewrite Hg; reflexivity.
  - intros Hm; rewrite Hm in Hp; rewrite Hp; cbn.
    split; reflexivity.
Qed.

(** C5.  In the same situation, with a user-site install requested and the
    matching distribution [d] outside the user site: [conflicts_with] keeps
    the value it had after the second look at the installed state, so it
    stays unset when it was unset, whatever [should_modify] is.  When
    [should_modify] is true the only field of the requirement that changes
    is [satisfied_by], which is cleared; when it is false no field
    changes. *)
Theorem user_site_scope_guard s0 s1 abstract_dist s2 d :
  fresh_path resolver s0 s1 ->
  acquire resolver (indented s1) = (Ok abstract_dist, s2) ->
  satisfied_by (st_req s2) = Some d ->
  use_user_site resolver = true ->
  dist_in_usersite d = false ->
  let final := snd (prepare s0) in
  conflicts_with (st_req final) = conflicts_with (st_req s2)
  /\ (conflicts_with (st_req s2) = None ->
      conflicts_with (st_req final) = None)
  /\ (should_modify resolver = true ->
      st_req final = set_satisfied_by None (st_req s2)
      /\ satisfied_by (st_req final) = None)
  /\ (should_modify resolver = false -> st_req final = st_req s2)
  /\ fst (prepare s0) = Ok abstract_dist.
Proof.
  intros Hf Ha Hs Hu Hd final.
  assert (Hp := prepare_after_acquire Hf Ha).
  unfold bind in Hp; rewrite (resolve_conflict_found _ Hs) in Hp.
  unfold superseding in Hp; rewrite Hu, Hd in Hp; cbn in Hp.
  unfold final; rewrite Hp.
  destruct (should_modify resolver); cbn;
    repeat split; auto; discriminate.
Qed.

Lemma prepare_fresh_before_unpack s :
  prepare_fresh resolver s
  = bind (before_unpack resolver) (from_unpack resolver) s.
Proof.
  unfold prepare_fresh, before_unpack, from_unpack.
  repeat (rewrite ?bind_assoc;
          first [reflexivity | apply bind_cong; intros]).
Qed.

Lemma prepare_before_unpack s0 s1 h s2 :
  fresh_path resolver s0 s1 ->
  before_unpack resolver (indented s1) = (Ok h, s2) ->
  prepare s0 = leaving (from_unpack resolver h s2).
Proof.
  intros Hf Hb.
  rewrite (prepare_fresh_path Hf), prepare_fresh_before_unpack.
  rewrite (bind_ok _ Hb); reflexivity.
Qed.

(** The unpack step, once the link is known to be there. *)
Lemma unpack_step_run s l h :
  link (st_req s) = Some l ->
  unpack_step h s
  = match unpack_url l (source_dir (st_req s))
                     (fst (destination_and_retention (st_self s) l))
                     (snd (destination_and_retention (st_self s) l))
                     h (st_world s) with
    | (Ok _, w) => (Ok tt, after_call s (unpack_call s l h) w)
    | (Raise e, w) =>
        if is_HTTPError e
        then (Raise (http_installation_error (st_req s) e),
              logged (after_call s (unpack_call s l h) w)
                     [EvLog CRITICAL
                            ("Could not install requirement %s because "
                               ++ "of error %s")
                            [str_req (st_req s); str_exn e]])
        else (Raise e, after_call s (unpack_call s l h) w)
    end.
Proof.
  intros Hl.
  unfold unpack_step, req_link.
  unfold try_except, bind, get_self, get_req, ret, raise, log, emit.
  cbv beta iota; rewrite Hl; cbv beta iota.
  unfold unpack_call, after_call, logged, call_world.
  destruct (destination_and_retention (st_self s) l) as [dl ad]; cbn.
  destruct (unpack_url l (source_dir (st_req s)) dl ad h (st_world s))
    as [[[]|e] w]; cbn; [reflexivity |].
  destruct (is_HTTPError e); reflexivity.
Qed.

(** C6, as the code has it.  When [unpack_url] raises at the unpack step:
    a [requests.HTTPError] is caught, logged, and replaced by an
    [InstallationError] whose message names the requirement, the error and
    the link; any other exception leaves [prepare_requirement] as it was
    raised. *)
Theorem http_error_wrapped s0 s1 h s2 l e w :
  fresh_path resolver s0 s1 ->
  before_unpack resolver (indented s1) = (Ok h, s2) ->
  link (st_req s2) = Some l ->
  unpack_url l (source_dir (st_req s2))
             (fst (destination_and_retention (st_self s2) l))
             (snd (destination_and_retention (st_self s2) l))
             h (st_world s2) = (Raise e, w) ->
  let s3 := after_call s2 (unpack_call s2 l h) w in
  (forall detail, e = HTTPError detail ->
     prepare s0
     = (Raise (InstallationError
                 ("Could not install requirement " ++ str_req (st_req s2)
                    ++ " because of HTTP error " ++ detail
                    ++ " for URL " ++ str_link l)),
        dedented
          (logged s3 [EvLog CRITICAL
                            "Could not install requirement %s because of error %s"
                            [str_req (st_req s2); detail]])))
  /\ (is_HTTPError e = false -> prepare s0 = (Raise e, dedented s3)).
Proof.
  intros Hf Hb Hl Hu s3.
  rewrite (prepare_before_unpack Hf Hb).
  unfold from_unpack, bind.
  rewrite (unpack_step_run _ _ Hl), Hu.
  split.
  - intros detail ->; cbn.
    unfold http_installation_error, str_opt_link; rewrite Hl; reflexivity.
  - intros ->; reflexivity.
Qed.

Lemma after_unpack_emits :
  emits_only (fun _ => true) (after_unpack resolver).
Proof.
  unfold after_unpack, prep_for_dist, download_should_save, req_link.
  footprint.
Qed.

Lemma resolve_conflict_emits :
  emits_only (fun _ => true) (resolve_conflict resolver).
Proof. unfold resolve_conflict; footprint. Qed.

(** Whatever happens afterwards, the first thing the unpack step adds to
    the trace is its call of [unpack_url]. *)
Lemma from_unpack_trace s l h :
  link (st_req s) = Some l ->
  exists rest,
    st_trace (snd (from_unpack resolver h s))
    = st_trace s ++ unpack_call s l h :: rest.
Proof.
  intros Hl; unfold from_unpack, bind at 1.
  rewrite (unpack_step_run _ _ Hl).
  destruct (unpack_url _ _ _ _ _ _) as [[[]|e] w].
  - assert (Hk : emits_only (fun _ => true)
                   (abstract_dist <- after_unpack resolver ;;
                    resolve_conflict resolver ;; ret abstract_dist)).
    { apply emits_bind; [apply after_unpack_emits | intros a].
      apply emits_bind; [apply resolve_conflict_emits | intros _].
      apply emits_ret. }
    destruct (Hk (after_call s (unpack_call s l h) w)) as (tr & Ht & _).
    exists tr; rewrite Ht; cbn; rewrite <- app_assoc; reflexivity.
  - destruct (is_HTTPError e); cbn; eexists;
      rewrite <- ?app_assoc; reflexivity.
Qed.

(** C7, as the code has it.  The [unpack_url] call of the third branch gets
    the download directory and the auto-delete flag of
    [destination_and_retention]: a wheel link with a wheel download
    directory set goes to that directory, anything else to the download
    directory; the unpacked tree of a link that is not a wheel is always
    marked for deletion, whether or not a download directory is set; the
    unpacked tree of a wheel is marked for deletion exactly when a download
    directory was resolved, and kept otherwise. *)
Theorem unpack_destination_and_retention s0 s1 h s2 l :
  fresh_path resolver s0 s1 ->
  before_unpack resolver (indented s1) = (Ok h, s2) ->
  link (st_req s2) = Some l ->
  let self := st_self s2 in
  let dl := fst (destination_and_retention self l) in
  let autodelete := snd (destination_and_retention self l) in
  (exists rest,
     st_trace (snd (prepare s0))
     = st_trace s2
         ++ EvUnpackUrl l (source_dir (st_req s2)) dl autodelete h :: rest)
  /\ (is_wheel l = true -> truthy_str (wheel_download_dir self) = true ->
      dl = wheel_download_dir self)
  /\ (is_wheel l && truthy_str (wheel_download_dir self) = false ->
      dl = download_dir self)
  /\ (is_wheel l = false -> autodelete = true)
  /\ (is_wheel l = true -> autodelete = truthy_str dl).
Proof.
  intros Hf Hb Hl self dl autodelete.
  split.
  - rewrite (prepare_before_unpack Hf Hb).
    destruct (@from_unpack_trace s2 l h Hl) as (rest & Hr).
    exists (rest ++ [EvDedent]).
    unfold leaving, dedented; cbn; rewrite Hr.
    unfold unpack_call; rewrite <- app_assoc; reflexivity.
  - unfold dl, autodelete, destination_and_retention; cbn.
    repeat split.
    + intros -> ->; reflexivity.
    + intros ->; reflexivity.
    + intros ->; reflexivity.
    + intros ->; cbn.
      destruct (truthy_str (wheel_download_dir self));
        destruct (truthy_str _); reflexivity.
Qed.

(** C9, as the code has it.  [IsWheel.dist] lists what [find_distributions]
    finds in the source directory of the requirement and returns the first
    entry, without looking at the others; when nothing is found it raises
    [IndexError].  It leaves the state alone, and so does
    [IsWheel.prep_for_dist], which does nothing at all. *)
Theorem wheel_dist_is_first_found (s : State World) :
  dist IsWheel s
  = match find_distributions (st_world s) (source_dir (st_req s)) with
    | d :: _ => (Ok (Some d), s)
    | [] => (Raise IndexError, s)
    end
  /\ prep_for_dist IsWheel s = (Ok tt, s).
Proof.
  split; [| reflexivity].
  unfold dist, bind, get_req, get_world, first_item; cbn.
  destruct (find_distributions (st_world s) (source_dir (st_req s)));
    reflexivity.
Qed.

Lemma check_hash_feasibility_state l s r s' :
  check_hash_feasibility resolver l s = (r, s') -> s' = s.
Proof.
  unfold check_hash_feasibility, bind, get_world, get_req, ret, raise.
  destruct (hashes_required resolver); cbv beta iota.
  - destruct (is_vcs_url l); cbv beta iota.
    + intros H; inversion H; reflexivity.
    + destruct (is_file_url l && is_dir_url (st_world s) l); cbv beta iota.
      * intros H; inversion H; reflexivity.
      * destruct (negb (truthy (original_link (st_req s)))
                  && negb (is_pinned (st_req s)));
          intros H; inversion H; reflexivity.
  - intros H; inversion H; reflexivity.
Qed.

Lemma effective_hashes_run s :
  effective_hashes resolver s
  = (Ok (if hashes_required resolver
            && negb (hashes_truthy
                       (hashes (negb (hashes_required resolver)) (st_req s)))
         then MissingHashes
         else hashes (negb (hashes_required resolver)) (st_req s)),
     logged s [EvHashes (negb (hashes_required resolver))]).
Proof.
  unfold effective_hashes, bind, get_req, emit, ret; cbn.
  destruct (hashes_required resolver && _); reflexivity.
Qed.

Lemma locate_link_link s l s2 :
  locate_link resolver s = (Ok l, s2) -> link (st_req s2) = Some l.
Proof.
  unfold locate_link, bind, get_self, get_req, get_world, call, ret, raise.
  cbv beta iota.
  destruct (ensure_has_source_dir _ _ _) as [[[[]|e] q] w];
    cbv beta iota; [| discriminate].
  cbn [st_req st_world st_self st_trace].
  destruct (source_dir q); [| discriminate].
  destruct (path_exists _ _); [discriminate |].
  cbv beta iota. cbn [st_req st_world st_self st_trace].
  destruct (is_upgrade_allowed q w) as [[[u|e] q1] w1];
    cbv beta iota; [| discriminate].
  cbn [st_req st_world st_self st_trace].
  destruct (populate_link u _ q1 w1) as [[[[]|e] q2] w2];
    cbv beta iota; [| discriminate].
  cbn [st_req st_world st_self st_trace].
  destruct (link q2) as [l'|] eqn:E; [| discriminate].
  intros H; inversion H; subst; cbn; exact E.
Qed.

(** From the link to the [unpack_url] call, when the feasibility checks
    let the requirement through. *)
Lemma prepare_from_link s0 s1 l s2 :
  fresh_path resolver s0 s1 ->
  locate_link resolver (indented s1) = (Ok l, s2) ->
  check_hash_feasibility resolver l s2 = (Ok tt, s2) ->
  let trust_internet := negb (hashes_required resolver) in
  let h :=
    if hashes_required resolver
       && negb (hashes_truthy (hashes trust_internet (st_req s2)))
    then MissingHashes
    else hashes trust_internet (st_req s2) in
  prepare s0
  = leaving (from_unpack resolver h (logged s2 [EvHashes trust_internet])).
Proof.
  intros Hf Hl Hc trust_internet h.
  apply (prepare_before_unpack Hf).
  unfold before_unpack.
  rewrite (bind_ok _ Hl), (bind_ok _ Hc).
  apply effective_hashes_run.
Qed.

End Properties.

(** ** With the hash policy of the specification *)

Section HashPolicy.
Context {World : Type}.
Context {platform : Platform World} {download : Download World}.
Context {resolver_ops : ResolverOps World}.
Variable R : Requirement World.
Variable resolver : Resolver.

Local Abbreviation policy := (with_hash_policy R).
Local Abbreviation prepare :=
  (prepare_requirement (requirement := with_hash_policy R) resolver).

(** C10.  [req.hashes] is called with [trust_internet = not
    require_hashes].  With the hash policy of the specification this means:
    when hashes are required the hash set handed to [unpack_url] is made of
    the hashes declared on the requirement and of nothing else (the
    sentinel when there are none), whatever the link carries; only when
    they are not required do the hashes embedded in the link count. *)
Theorem trust_internet_negates_require_hashes s0 s1 l s2 :
  fresh_path (requirement := policy) resolver s0 s1 ->
  locate_link (requirement := policy) resolver (indented s1) = (Ok l, s2) ->
  check_hash_feasibility resolver l s2 = (Ok tt, s2) ->
  let declared := declared_hashes (st_req s2) in
  let trust_internet := negb (hashes_required resolver) in
  let h :=
    if hashes_required resolver
    then match declared with
         | [] => MissingHashes
         | _ :: _ => Hashes declared
         end
    else Hashes (declared ++ embedded_hashes l) in
  effective_hashes (requirement := policy) resolver s2
  = (Ok h, logged s2 [EvHashes trust_internet])
  /\ exists rest,
       st_trace (snd (prepare s0))
       = st_trace s2 ++ EvHashes trust_internet :: unpack_call s2 l h :: rest.
Proof.
  intros Hf Hl Hc declared trust_internet h.
  assert (Hlink := locate_link_link _ _ Hl).
  assert (Hh : (if hashes_required resolver
                   && negb (hashes_truthy
                              (hashes (Requirement := policy)
                                      trust_internet (st_req s2)))
                then MissingHashes
                else hashes (Requirement := policy)
                            trust_internet (st_req s2)) = h).
  { unfold h, trust_internet, declared; cbn; unfold hashes_for.
    rewrite Hlink.
    destruct (hashes_required resolver); cbn; [| reflexivity].
    rewrite app_nil_r.
    destruct (declared_hashes (st_req s2)); reflexivity. }
  split.
  - rewrite effective_hashes_run; fold trust_internet; rewrite Hh.
    reflexivity.
  - rewrite (prepare_from_link Hf Hl Hc); fold trust_internet; rewrite Hh.
    destruct (from_unpack_trace (requirement := policy) resolver
                (logged s2 [EvHashes trust_internet]) h Hlink)
      as (rest & Hr).
    exists (rest ++ [EvDedent]).
    unfold leaving, dedented; cbn [snd st_trace]; rewrite Hr.
    cbn; rewrite <- !app_assoc; reflexivity.
Qed.

End HashPolicy.

(** ** With the unpack step of the specification *)

Section CheckedUnpack.
Context {World : Type}.
Context {platform : Platform World} {requirement : Requirement World}.
Context {resolver_ops : ResolverOps World}.
Variable D : Download World.
Variable fetch : @Fetch World.
Variable resolver : Resolver.

Local Abbreviation checked := (with_unpack D fetch).
Local Abbreviation prepare :=
  (prepare_requirement (download := with_unpack D fetch) resolver).

(** C2.  With hashes required, the feasibility checks passed and no hash
    known for the requirement, nothing fails before the unpack step: the
    hash set becomes the sentinel [MissingHashes] and [unpack_url] is
    called with it.  There, once the content has been fetched and its
    digest computed, the sentinel fails with [HashMissing] carrying that
    digest, and this is the exception that leaves [prepare_requirement];
    nothing after the [unpack_url] call is run. *)
Theorem missing_hashes_fail_at_unpack s0 s1 l s2 digest w :
  fresh_path (download := checked) resolver s0 s1 ->
  locate_link resolver (indented s1) = (Ok l, s2) ->
  check_hash_feasibility (download := checked) resolver l s2 = (Ok tt, s2) ->
  hashes_required resolver = true ->
  hashes_truthy (hashes false (st_req s2)) = false ->
  let dl := fst (destination_and_retention (st_self s2) l) in
  let autodelete := snd (destination_and_retention (st_self s2) l) in
  fetch l (source_dir (st_req s2)) dl autodelete (st_world s2)
    = (Ok digest, w) ->
  effective_hashes resolver s2 = (Ok MissingHashes, logged s2 [EvHashes false])
  /\ prepare s0
     = (Raise (HashMissing digest),
        mkState (st_req s2) (st_self s2) w
                (st_trace s2
                   ++ [EvHashes false;
                       EvUnpackUrl l (source_dir (st_req s2)) dl autodelete
                                   MissingHashes;
                       EvDedent])).
Proof.
  intros Hf Hl Hc Hr Ht dl autodelete Hfetch.
  assert (Hlink := locate_link_link _ _ Hl).
  split.
  - rewrite effective_hashes_run, Hr; cbn [negb]; rewrite Ht; reflexivity.
  - rewrite (prepare_from_link Hf Hl Hc), Hr; cbn [negb]; rewrite Ht.
    cbn [andb negb].
    unfold from_unpack, bind.
    rewrite (unpack_step_run (download := checked)
               (logged s2 [EvHashes false]) MissingHashes Hlink).
    cbn [unpack_url with_unpack logged st_req st_self st_world].
    fold dl autodelete.
    unfold unpack_url_spec; rewrite Hfetch; cbn.
    unfold leaving, dedented, after_call, unpack_call; cbn.
    fold dl autodelete.
    rewrite <- !app_assoc; reflexivity.
Qed.

End CheckedUnpack.

(** ** Runs in the concrete environment *)

(** A version-control link under required hashes. *)
Lemma hash_feasibility_order_witness :
  Demo.prepare Demo.hashing Demo.from_vcs
  = (Raise VcsHashUnsupported,
     dedented (Demo.located Demo.hashing Demo.from_vcs)).
Proof.
  refine (proj1 (proj1 (hash_feasibility_order
                          (platform := Demo.platform)
                          (download := Demo.download)
                          (requirement := Demo.requirement)
                          (resolver_ops := Demo.resolver_ops)
                          (resolver := Demo.hashing)
                          (s0 := Demo.from_vcs)
                          (s1 := Demo.announced Demo.hashing Demo.from_vcs)
                          (l := Demo.vcs_link)
                          (s2 := Demo.located Demo.hashing Demo.from_vcs)
                          _ _) _) _).
  - repeat split; reflexivity.
  - reflexivity.
  - reflexivity.
  - reflexivity.
Defined.

(** An editable checkout under required hashes. *)
Lemma editable_refused_before_any_access_witness :
  fst (Demo.prepare Demo.hashing Demo.from_checkout)
  = Raise (InstallationError
             "The editable requirement git+https://code.invalid/demo.git cannot be installed when requiring hashes, because there is no single file to hash.")
  /\ st_world (snd (Demo.prepare Demo.hashing Demo.from_checkout)) = [].
Proof.
  assert (H := proj1 (editable_refused_before_any_access
                        (platform := Demo.platform)
                        (download := Demo.download)
                        (requirement := Demo.requirement)
                        (resolver_ops := Demo.resolver_ops)
                        Demo.hashing Demo.from_checkout
                        eq_refl eq_refl)).
  unfold Demo.prepare; rewrite H; split; reflexivity.
Defined.

(** A pinned archive link without declared hashes, hashes required. *)
Lemma missing_hashes_fail_at_unpack_witness :
  fst (Demo.prepare_checked Demo.hashing Demo.from_sdist)
  = Raise (HashMissing "2cf24dba5fb0a30e26e83b2ac5b9e29e").
Proof.
  assert (H := proj2 (missing_hashes_fail_at_unpack
                        (platform := Demo.platform)
                        (requirement := Demo.requirement)
                        (resolver_ops := Demo.resolver_ops)
                        (D := Demo.download) (fetch := Demo.fetch)
                        (resolver := Demo.hashing)
                        (s0 := Demo.from_sdist)
                        (s1 := Demo.announced Demo.hashing Demo.from_sdist)
                        (l := Demo.sdist_link)
                        (s2 := Demo.located Demo.hashing Demo.from_sdist)
                        (digest := "2cf24dba5fb0a30e26e83b2ac5b9e29e")
                        (w := ["/build/demo/PKG-INFO"; "/build/demo/"])
                        (conj eq_refl (conj eq_refl (conj eq_refl eq_refl)))
                        eq_refl eq_refl eq_refl eq_refl eq_refl)).
  unfold Demo.prepare_checked; rewrite H; reflexivity.
Defined.

(** Version 1.0 is installed, the strategy is eager. *)
Lemma conflict_resolution_witness :
  fst (Demo.prepare Demo.eager Demo.over_installed) = Ok IsSDist
  /\ satisfied_by (st_req (snd (Demo.prepare Demo.eager Demo.over_installed)))
     = None
  /\ conflicts_with (st_req (snd (Demo.prepare Demo.eager
                                               Demo.over_installed)))
     = Some Demo.installed.
Proof.
  destruct (conflict_resolution
              (platform := Demo.platform) (download := Demo.download)
              (requirement := Demo.requirement)
              (resolver_ops := Demo.resolver_ops)
              (resolver := Demo.eager)
              (s0 := Demo.over_installed)
              (s1 := Demo.announced Demo.eager Demo.over_installed)
              (abstract_dist := IsSDist)
              (s2 := Demo.acquired Demo.eager Demo.over_installed)
              (d := Demo.installed)
              (conj eq_refl (conj eq_refl (conj eq_refl eq_refl)))
              eq_refl eq_refl)
    as (Hr & _ & _ & Hm & _).
  destruct (Hm eq_refl) as (Hs & Hc & _).
  exact (conj Hr (conj Hs (Hc eq_refl))).
Defined.

(** The same, for a user-site install over a system-wide one. *)
Lemma user_site_scope_guard_witness :
  satisfied_by
    (st_req (snd (Demo.prepare Demo.eager_user Demo.over_installed))) = None
  /\ conflicts_with
       (st_req (snd (Demo.prepare Demo.eager_user Demo.over_installed)))
     = None.
Proof.
  destruct (user_site_scope_guard
              (platform := Demo.platform) (download := Demo.download)
              (requirement := Demo.requirement)
              (resolver_ops := Demo.resolver_ops)
              (resolver := Demo.eager_user)
              (s0 := Demo.over_installed)
              (s1 := Demo.announced Demo.eager_user Demo.over_installed)
              (abstract_dist := IsSDist)
              (s2 := Demo.acquired Demo.eager_user Demo.over_installed)
              (d := Demo.installed)
              (conj eq_refl (conj eq_refl (conj eq_refl eq_refl)))
              eq_refl eq_refl eq_refl eq_refl)
    as (_ & Hc & Hm & _).
  exact (conj (proj2 (Hm eq_refl)) (Hc eq_refl)).
Defined.

(** The index answers 404 for the archive. *)
Lemma http_error_wrapped_witness :
  fst (Demo.prepare Demo.plain Demo.from_missing)
  = Raise (InstallationError
             "Could not install requirement https://pypi.invalid/missing-1.0.tar.gz because of HTTP error 404 Client Error: Not Found for URL https://pypi.invalid/missing-1.0.tar.gz").
Proof.
  assert (H := proj1 (http_error_wrapped
                        (platform := Demo.platform)
                        (download := Demo.download)
                        (requirement := Demo.requirement)
                        (resolver_ops := Demo.resolver_ops)
                        (resolver := Demo.plain)
                        (s0 := Demo.from_missing)
                        (s1 := Demo.announced Demo.plain Demo.from_missing)
                        (h := Hashes [])
                        (s2 := Demo.hashed Demo.plain Demo.from_missing)
                        (l := Demo.missing_link)
                        (e := HTTPError "404 Client Error: Not Found")
                        (w := ["/build/demo/"])
                        (conj eq_refl (conj eq_refl (conj eq_refl eq_refl)))
                        eq_refl eq_refl eq_refl)
                     "404 Client Error: Not Found" eq_refl).
  unfold Demo.prepare; rewrite H; reflexivity.
Defined.

(** A source archive while a download directory is set. *)
Lemma unpack_destination_and_retention_witness :
  snd (destination_and_retention Demo.saving_preparer Demo.sdist_link) = true.
Proof.
  destruct (unpack_destination_and_retention
              (platform := Demo.platform) (download := Demo.download)
              (requirement := Demo.requirement)
              (resolver_ops := Demo.resolver_ops)
              (resolver := Demo.plain)
              (s0 := Demo.from_sdist_saving)
              (s1 := Demo.announced Demo.plain Demo.from_sdist_saving)
              (h := Hashes [("sha256", "5feceb66ffc86f38d952786c6d696c79")])
              (s2 := Demo.hashed Demo.plain Demo.from_sdist_saving)
              (l := Demo.sdist_link)
              (conj eq_refl (conj eq_refl (conj eq_refl eq_refl)))
              eq_refl eq_refl)
    as (_ & _ & _ & Ha & _).
  exact (Ha eq_refl).
Defined.

(** A [setup.py] is left in the build directory. *)
Lemma stale_build_dir_refused_witness :
  fst (Demo.prepare Demo.plain Demo.over_stale_build)
  = Raise (PreviousBuildDirError
             "pip can't proceed with requirements 'https://pypi.invalid/demo-2.0.tar.gz' due to a pre-existing build directory (/build/demo). This is likely due to a previous installation that failed. pip is being responsible and not assuming it can delete this. Please delete it and try again.")
  /\ st_world (snd (Demo.prepare Demo.plain Demo.over_stale_build))
     = ["/build/demo/"; "/build/demo/setup.py"].
Proof.
  assert (H := proj1 (stale_build_dir_refused
                        (platform := Demo.platform)
                        (download := Demo.download)
                        (requirement := Demo.requirement)
                        (resolver_ops := Demo.resolver_ops)
                        (resolver := Demo.plain)
                        (s0 := Demo.over_stale_build)
                        (s1 := Demo.announced Demo.plain
                                              Demo.over_stale_build)
                        (q := Demo.set_source_dir (Some "/build/demo")
                                (Demo.with_link Demo.sdist_link))
                        (w := ["/build/demo/"; "/build/demo/setup.py"])
                        (dir := "/build/demo")
                        (conj eq_refl (conj eq_refl (conj eq_refl eq_refl)))
                        eq_refl eq_refl eq_refl)).
  unfold Demo.prepare; rewrite H; split; reflexivity.
Defined.

(** The link carries a hash, the requirement declares none. *)
Lemma trust_internet_negates_require_hashes_witness :
  embedded_hashes Demo.sdist_link
  = [("sha256", "5feceb66ffc86f38d952786c6d696c79")]
  /\ fst (effective_hashes (requirement := with_hash_policy Demo.requirement)
                           Demo.hashing
                           (Demo.located Demo.hashing Demo.from_sdist))
     = Ok MissingHashes.
Proof.
  split; [reflexivity |].
  assert (H := proj1 (trust_internet_negates_require_hashes
                        (platform := Demo.platform)
                        (download := Demo.download)
                        (resolver_ops := Demo.resolver_ops)
                        (R := Demo.requirement)
                        (resolver := Demo.hashing)
                        (s0 := Demo.from_sdist)
                        (s1 := Demo.announced Demo.hashing Demo.from_sdist)
                        (l := Demo.sdist_link)
                        (s2 := Demo.located Demo.hashing Demo.from_sdist)
                        (conj eq_refl (conj eq_refl (conj eq_refl eq_refl)))
                        eq_refl eq_refl)).
  rewrite H; reflexivity.
Defined.

(** ** Where the specification says more than the code does *)

(** C6, as claimed, fails: a connection error raised by [unpack_url] is not
    an [HTTPError]; it is not caught and leaves [prepare_requirement] as it
    is, not as an [InstallationError]. *)
Lemma connection_error_escapes :
  unpack_url (Download := Demo.download) Demo.unreachable_link
             (Some "/build/demo") None true (Hashes []) ["/build/demo/"]
  = (Raise (ConnectionError "Connection refused"), ["/build/demo/"])
  /\ fst (Demo.prepare Demo.plain Demo.from_unreachable)
     = Raise (ConnectionError "Connection refused")
  /\ forall msg,
       fst (Demo.prepare Demo.plain Demo.from_unreachable)
       <> Raise (InstallationError msg).
Proof.
  split; [reflexivity | split; [reflexivity |]].
  intros msg; vm_compute; discriminate.
Qed.

(** C7, as claimed, fails: with a download directory set, the unpacked tree
    of a source archive is still marked for deletion. *)
Lemma sdist_autodelete_ignores_download_dir :
  is_wheel Demo.sdist_link = false
  /\ truthy_str (download_dir Demo.saving_preparer) = true
  /\ snd (destination_and_retention Demo.saving_preparer Demo.sdist_link)
     = true
  /\ snd (destination_and_retention Demo.saving_preparer Demo.sdist_link)
     <> sdist_autodelete_as_specified Demo.saving_preparer
  /\ In (EvUnpackUrl Demo.sdist_link (Some "/build/demo")
                     (Some "/downloads") true
                     (Hashes [("sha256",
                               "5feceb66ffc86f38d952786c6d696c79")]))
        (st_trace (snd (Demo.prepare Demo.plain Demo.from_sdist_saving))).
Proof.
  repeat split; try reflexivity.
  - vm_compute; discriminate.
  - vm_compute; tauto.
Qed.

(** C9, as claimed, fails: in an unpacked wheel directory where nothing is
    found, [IsWheel.dist] returns no distribution but raises
    [IndexError]. *)
Lemma wheel_dist_of_empty_dir_raises :
  find_distributions (Platform := Demo.platform)
                     (st_world Demo.empty_wheel_dir)
                     (source_dir (st_req Demo.empty_wheel_dir)) = []
  /\ dist (platform := Demo.platform) (requirement := Demo.requirement)
          (resolver_ops := Demo.resolver_ops) IsWheel Demo.empty_wheel_dir
     = (Raise IndexError, Demo.empty_wheel_dir).
Proof. split; reflexivity. Qed.

(** ** Further properties of the module *)

Section Further.
Context {World : Type}.
Context {platform : Platform World} {download : Download World}.
Context {requirement : Requirement World} {resolver_ops : ResolverOps World}.
Variable resolver : Resolver.

Local Abbreviation M := (M World).
Local Abbreviation prepare := (prepare_requirement resolver).

(** X1.  [make_abstract_dist] picks the wheel abstraction exactly for a
    requirement that is not editable and whose link is a wheel; every other
    requirement, an editable one with a wheel link included, gets the
    source-tree abstraction. *)
Theorem make_abstract_dist_wheel_iff req :
  (make_abstract_dist req = IsWheel
   <-> editable req = false
       /\ exists l, link req = Some l /\ is_wheel l = true)
  /\ (make_abstract_dist req <> IsWheel -> make_abstract_dist req = IsSDist).
Proof.
  unfold make_abstract_dist.
  destruct (editable req); [| destruct (link req) as [l|];
                              [destruct (is_wheel l) eqn:Ew |]].
  - split; [split |]; [discriminate | intros (H & _); discriminate | auto].
  - split; [split |]; [intros _ | auto | intros H; contradiction H; auto].
    split; [reflexivity | exists l; auto].
  - split; [split |]; [discriminate | | auto].
    intros (_ & l' & Hl & Hw); inversion Hl; subst; congruence.
  - split; [split |]; [discriminate | | auto].
    intros (_ & l' & Hl & _); discriminate.
Qed.

(** X2.  What [_download_should_save] answers can be relied on: it never
    touches the requirement or the world; it answers [True] only when the
    download directory it leaves in [self.download_dir] exists; it answers
    [False] exactly when [download_dir] is [None] or the empty string, and
    then changes nothing at all. *)
Theorem download_should_save_sound s :
  let out := download_should_save s in
  st_req (snd out) = st_req s
  /\ st_world (snd out) = st_world s
  /\ (fst out = Ok true ->
      exists d, download_dir (st_self (snd out)) = Some d
                /\ path_exists (st_world (snd out)) d = true)
  /\ (fst out = Ok false <-> truthy_str (download_dir (st_self s)) = false)
  /\ (fst out = Ok false -> snd out = s).
Proof.
  unfold download_should_save, bind, get_self, get_world, put_self, log,
    emit, ret, raise; cbn.
  destruct (download_dir (st_self s)) as [d|]; cbn.
  - destruct (d =? "") eqn:Ed; cbn.
    + repeat split; auto; discriminate.
    + destruct (path_exists (st_world s) (expanduser d)) eqn:Ep; cbn.
      * repeat split; auto; try discriminate.
        intros _; exists (expanduser d); auto.
      * repeat split; auto; discriminate.
  - repeat split; auto; discriminate.
Qed.

(** X3.  When [expanduser] leaves an expanded path alone and only maps the
    empty path to the empty path, asking [_download_should_save] again
    gives the same answer and changes nothing more: the later uses in one
    call agree with the first. *)
Theorem download_should_save_stable s b s' :
  (forall p, expanduser (expanduser p) = expanduser p) ->
  (forall p, expanduser p = "" -> p = "") ->
  download_should_save s = (Ok b, s') ->
  download_should_save s' = (Ok b, s').
Proof.
  intros Hidem Hempty.
  unfold download_should_save, bind, get_self, get_world, put_self, log,
    emit, ret, raise; cbn.
  destruct (download_dir (st_self s)) as [d|] eqn:Hd; cbn.
  - destruct (d =? "") eqn:Ed; cbn.
    + intros H; inversion H; subst; rewrite Hd; cbn; rewrite Ed; reflexivity.
    + destruct (path_exists (st_world s) (expanduser d)) eqn:Ep; cbn;
        [| discriminate].
      intros H; inversion H; subst; cbn.
      destruct (expanduser d =? "") eqn:Ee; cbn.
      * apply String.eqb_eq in Ee; apply Hempty in Ee.
        apply String.eqb_neq in Ed; contradiction.
      * rewrite Hidem, Ep; reflexivity.
  - intros H; inversion H; subst; rewrite Hd; reflexivity.
Qed.

(** X4.  A requirement that is not editable must come in with
    [satisfied_by] unset: otherwise the assertion of line 159 fails before
    anything is logged or called, and the state is left as it was. *)
Theorem preset_satisfied_by_asserts s0 d :
  editable (st_req s0) = false ->
  satisfied_by (st_req s0) = Some d ->
  prepare s0 = (Raise (AssertionError ""), s0).
Proof.
  intros He Hs.
  unfold prepare_requirement, announce, bind, get_req; cbn.
  rewrite He, Hs; reflexivity.
Qed.

(** X5.  The second branch: when the resolver's check finds the
    requirement installed, the call returns the [Installed] abstraction
    whether or not hashes are required (it only logs a warning when they
    are).  The requirement and the world are exactly as
    [_check_skip_installed] left them, so [conflicts_with] is not touched,
    and no other collaborator is called. *)
Theorem already_installed_is_trusted s0 reason q w d rh :
  editable (st_req s0) = false ->
  satisfied_by (st_req s0) = None ->
  ignore_installed resolver = false ->
  require_hashes resolver = Some rh ->
  check_skip_installed (st_req s0) (st_world s0) = (Ok (Some reason), q, w) ->
  editable q = false ->
  satisfied_by q = Some d ->
  let warning :=
    EvLog DEBUG
          "Since it is already installed, we are trusting this package without checking its hash. To ensure a completely repeatable environment, install into an empty virtualenv."
          [] in
  prepare s0
  = (Ok Installed,
     mkState q (st_self s0) w
             (st_trace s0
                ++ [EvCheckSkipInstalled;
                    EvLog INFO "Requirement %s: %s (%s)"
                          [reason; str_req q; version d];
                    EvIndent]
                ++ (if rh then [warning] else [])
                ++ [EvDedent])).
Proof.
  intros He Hs Hi Hr Hc Heq Hsq warning.
  unfold prepare_requirement, announce, bind, get_req, call; cbn.
  rewrite He, Hs, Hi; cbn.
  rewrite Hc; cbn.
  rewrite Hsq; cbn.
  rewrite Hr; cbn.
  unfold indent_log, emit; cbn.
  rewrite Heq, Hsq; cbn.
  unfold prepare_installed, hashes_required, bind; rewrite Hr.
  destruct rh; cbn; rewrite <- !app_assoc; reflexivity.
Qed.

Lemma announce_touches_nothing :
  emits_only (fun e => negb (fetches e || touches_sources e))
             (announce resolver).
Proof. unfold announce; footprint. Qed.

(** X6.  While the resolver has not set [require_hashes], no requirement
    is prepared: every call ends in an exception, and up to there nothing
    was fetched and no source directory was made or filled. *)
Theorem require_hashes_unset_never_prepares s0 :
  require_hashes resolver = None ->
  (exists e, fst (prepare s0) = Raise e)
  /\ exists tr,
       st_trace (snd (prepare s0)) = st_trace s0 ++ tr
       /\ forallb (fun e => negb (fetches e || touches_sources e)) tr = true.
Proof.
  intros Hr.
  destruct (announce_touches_nothing s0) as (tr & Ht & Hp).
  unfold prepare_requirement, bind.
  destruct (announce resolver s0) as [[[]|e] s1]; cbn in Ht.
  - rewrite Hr; cbn; split; [eexists; reflexivity | exists tr; auto].
  - cbn; split; [eexists; reflexivity | exists tr; auto].
Qed.

(** The third branch up to the call of [populate_link]. *)
Lemma prepare_until_populate_link s0 s1 q w dir u q1 w1 :
  fresh_path resolver s0 s1 ->
  ensure_has_source_dir (build_dir (st_self s1)) (st_req s1) (st_world s1)
    = (Ok tt, q, w) ->
  source_dir q = Some dir ->
  path_exists w (path_join dir "setup.py") = false ->
  is_upgrade_allowed q w = (Ok u, q1, w1) ->
  locate_link resolver (indented s1)
  = match populate_link u (hashes_required resolver) q1 w1 with
    | (r, q2, w2) =>
        let s2 := mkState q2 (st_self s1) w2
                          (st_trace s1
                             ++ [EvIndent;
                                 EvEnsureHasSourceDir (build_dir (st_self s1));
                                 EvIsUpgradeAllowed;
                                 EvPopulateLink u (hashes_required resolver)])
        in
        match r with
        | Ok _ => match link q2 with
                  | Some l => (Ok l, s2)
                  | None => (Raise (AssertionError ""), s2)
                  end
        | Raise e => (Raise e, s2)
        end
    end.
Proof.
  intros _ He Hd Hp Hu.
  unfold locate_link, bind, get_self, get_req, get_world, call, indented.
  cbn; rewrite He; cbn; rewrite Hd, Hp; cbn; rewrite Hu; cbn.
  destruct (populate_link u (hashes_required resolver) q1 w1)
    as [[[[]|e] q2] w2]; cbn; rewrite <- ?app_assoc; cbn.
  - destruct (link q2); reflexivity.
  - reflexivity.
Qed.

(** X7.  When [populate_link] returns without a link on the requirement,
    the call stops at the assertion of line 242: nothing is hashed or
    unpacked. *)
Theorem missing_link_asserts s0 s1 q w dir u q1 w1 q2 w2 :
  fresh_path resolver s0 s1 ->
  ensure_has_source_dir (build_dir (st_self s1)) (st_req s1) (st_world s1)
    = (Ok tt, q, w) ->
  source_dir q = Some dir ->
  path_exists w (path_join dir "setup.py") = false ->
  is_upgrade_allowed q w = (Ok u, q1, w1) ->
  populate_link u (hashes_required resolver) q1 w1 = (Ok tt, q2, w2) ->
  link q2 = None ->
  prepare s0
  = (Raise (AssertionError ""),
     mkState q2 (st_self s1) w2
             (st_trace s1
                ++ [EvIndent; EvEnsureHasSourceDir (build_dir (st_self s1));
                    EvIsUpgradeAllowed;
                    EvPopulateLink u (hashes_required resolver);
                    EvDedent])).
Proof.
  intros Hf He Hd Hp Hu Hl Hn.
  rewrite (prepare_fresh_path Hf).
  unfold prepare_fresh, bind.
  rewrite (prepare_until_populate_link Hf He Hd Hp Hu), Hl; cbn.
  rewrite Hn; unfold leaving, dedented; cbn.
  rewrite <- app_assoc; reflexivity.
Qed.

(** X8.  An exception raised by [populate_link], an HTTP error of the
    index included, leaves [prepare_requirement] as it was raised: the
    handler of lines 301-312 covers the unpack step only. *)
Theorem populate_link_errors_pass_through s0 s1 q w dir u q1 w1 e q2 w2 :
  fresh_path resolver s0 s1 ->
  ensure_has_source_dir (build_dir (st_self s1)) (st_req s1) (st_world s1)
    = (Ok tt, q, w) ->
  source_dir q = Some dir ->
  path_exists w (path_join dir "setup.py") = false ->
  is_upgrade_allowed q w = (Ok u, q1, w1) ->
  populate_link u (hashes_required resolver) q1 w1 = (Raise e, q2, w2) ->
  prepare s0
  = (Raise e,
     mkState q2 (st_self s1) w2
             (st_trace s1
                ++ [EvIndent; EvEnsureHasSourceDir (build_dir (st_self s1));
                    EvIsUpgradeAllowed;
                    EvPopulateLink u (hashes_required resolver);
                    EvDedent])).
Proof.
  intros Hf He Hd Hp Hu Hl.
  rewrite (prepare_fresh_path Hf).
  unfold prepare_fresh, bind.
  rewrite (prepare_until_populate_link Hf He Hd Hp Hu), Hl; cbn.
  unfold leaving, dedented; cbn.
  rewrite <- app_assoc; reflexivity.
Qed.

Lemma prepare_editable_emits :
  emits_only (fun e => negb (resolves_or_unpacks e))
             (prepare_editable resolver).
Proof.
  unfold prepare_editable, prep_for_dist, download_should_save.
  footprint.
Qed.

Lemma prepare_editable_path s0 :
  editable (st_req s0) = true ->
  let s1 := logged s0 [EvLog INFO "Obtaining %s" [str_req (st_req s0)]] in
  prepare s0
  = if truthy (require_hashes resolver)
    then leaving (prepare_editable resolver (indented s1))
    else (Raise (AssertionError "This should have been set in resolve()"),
          s1).
Proof.
  intros He s1.
  unfold prepare_requirement, announce, bind at 1 2, get_req at 1.
  cbv beta iota; rewrite He.
  unfold log, emit; cbv beta iota; fold s1.
  destruct (truthy (require_hashes resolver)); [| reflexivity].
  unfold py_assert, ret, bind at 1; cbv beta iota.
  rewrite indent_log_leaving; unfold bind at 1, get_req at 1.
  cbv beta iota.
  unfold indented at 1; cbn [st_req]; rewrite He; reflexivity.
Qed.

(** X9.  For an editable requirement no link is resolved and nothing is
    unpacked: whatever the outcome, the call never asks whether an upgrade
    is allowed, never calls [populate_link], [req.hashes] or
    [unpack_url]. *)
Theorem editable_never_resolves_or_unpacks s0 :
  editable (st_req s0) = true ->
  exists tr,
    st_trace (snd (prepare s0)) = st_trace s0 ++ tr
    /\ forallb (fun e => negb (resolves_or_unpacks e)) tr = true.
Proof.
  intros He.
  rewrite (prepare_editable_path _ He).
  destruct (truthy (require_hashes resolver)).
  - match goal with
    | |- context [prepare_editable resolver ?s] =>
        destruct (prepare_editable_emits s) as (tr & Ht & Hp)
    end.
    unfold leaving, dedented; cbn [snd st_trace]; rewrite Ht; cbn.
    eexists; rewrite <- !app_assoc; split; [reflexivity |].
    cbn; rewrite forallb_app, Hp; reflexivity.
  - eexists; split; reflexivity.
Qed.

(** X10.  An editable requirement with a download directory that is set
    but does not exist fails with [InstallationError] right after its
    source directory is ensured: the checkout is neither obtained nor
    updated. *)
Theorem editable_missing_download_dir s0 q w d :
  editable (st_req s0) = true ->
  require_hashes resolver = Some false ->
  ensure_has_source_dir (src_dir (st_self s0)) (st_req s0) (st_world s0)
    = (Ok tt, q, w) ->
  download_dir (st_self s0) = Some d ->
  d <> "" ->
  path_exists w (expanduser d) = false ->
  prepare s0
  = (Raise (InstallationError
              ("Could not find or access download directory '"
                 ++ display_path (expanduser d) ++ "'")),
     mkState q (set_download_dir (Some (expanduser d)) (st_self s0)) w
             (st_trace s0
                ++ [EvLog INFO "Obtaining %s" [str_req (st_req s0)];
                    EvIndent;
                    EvEnsureHasSourceDir (src_dir (st_self s0));
                    EvLog CRITICAL "Could not find download directory" [];
                    EvDedent])).
Proof.
  intros He Hr Hs Hd Hne Hp.
  apply String.eqb_neq in Hne.
  rewrite (prepare_editable_path _ He), Hr; cbn [truthy].
  unfold prepare_editable, hashes_required, bind, get_req, get_self, call.
  rewrite Hr; cbn. rewrite Hs; cbn.
  unfold download_should_save, bind, get_self, get_world, put_self, log,
    emit; cbn.
  rewrite Hd, Hne; cbn. rewrite Hp; cbn.
  unfold leaving, dedented; cbn.
  rewrite <- !app_assoc; reflexivity.
Qed.

Lemma prepare_fresh_consults_nothing :
  ignore_installed resolver = true ->
  emits_only (fun e => negb (consults_installed e)) (prepare_fresh resolver).
Proof.
  intros Hi.
  unfold prepare_fresh, locate_link, check_hash_feasibility,
    effective_hashes, unpack_step, after_unpack, resolve_conflict,
    prep_for_dist, download_should_save, req_link.
  rewrite Hi; cbn [negb].
  footprint.
Qed.

Lemma prepare_ignoring_installed s0 :
  ignore_installed resolver = true ->
  editable (st_req s0) = false ->
  satisfied_by (st_req s0) = None ->
  exists ev,
    consults_installed ev = false
    /\ prepare s0
       = if truthy (require_hashes resolver)
         then leaving (prepare_fresh resolver (indented (logged s0 [ev])))
         else (Raise (AssertionError
                        "This should have been set in resolve()"),
               logged s0 [ev]).
Proof.
  intros Hi He Hs.
  assert (Ha : exists ev,
             consults_installed ev = false
             /\ announce resolver s0 = (Ok tt, logged s0 [ev])).
  { unfold announce, bind, get_req; cbn.
    rewrite He, Hs, Hi; cbn; rewrite Hs.
    destruct (link (st_req s0)) as [l|];
      [destruct (scheme l =? "file") |];
      eexists; (split; [| reflexivity]); reflexivity. }
  destruct Ha as (ev & Hev & Ha); exists ev; split; [exact Hev |].
  destruct (truthy (require_hashes resolver)) eqn:Hr.
  - apply prepare_fresh_path.
    repeat split; [exact Ha | exact Hr | exact He | exact Hs].
  - unfold prepare_requirement.
    rewrite (bind_ok _ Ha); unfold py_assert; rewrite Hr; reflexivity.
Qed.

(** X11.  With [ignore_installed], for a requirement that is not editable,
    neither [_check_skip_installed] nor [check_if_exists] is ever called:
    what is installed is not looked at. *)
Theorem ignore_installed_never_consults s0 :
  ignore_installed resolver = true ->
  editable (st_req s0) = false ->
  exists tr,
    st_trace (snd (prepare s0)) = st_trace s0 ++ tr
    /\ forallb (fun e => negb (consults_installed e)) tr = true.
Proof.
  intros Hi He.
  destruct (satisfied_by (st_req s0)) as [d|] eqn:Hs.
  { exists []; rewrite app_nil_r; split; [| reflexivity].
    unfold prepare_requirement, announce, bind, get_req; cbn.
    rewrite He, Hs; reflexivity. }
  destruct (prepare_ignoring_installed _ Hi He Hs) as (ev & Hev & ->).
  destruct (truthy (require_hashes resolver)).
  - match goal with
    | |- context [prepare_fresh resolver ?s] =>
        destruct (prepare_fresh_consults_nothing Hi s) as (tr & Ht & Hp)
    end.
    unfold leaving, dedented; cbn [snd st_trace]; rewrite Ht; cbn.
    eexists; rewrite <- !app_assoc; split; [reflexivity |].
    cbn; rewrite Hev, forallb_app, Hp; reflexivity.
  - exists [ev]; cbn; rewrite Hev; split; reflexivity.
Qed.

(** *** Relations kept by every run *)

Section Keeping.
Variable Q : State World -> State World -> Prop.
Hypothesis Qrefl : forall s, Q s s.
Hypothesis Qtrans : forall s1 s2 s3, Q s1 s2 -> Q s2 s3 -> Q s1 s3.
Hypothesis Qself : forall s r w tr, Q s (mkState r (st_self s) w tr).

Lemma keeps_ret A (a : A) : keeps Q (ret a : M A).
Proof. intros s; apply Qrefl. Qed.

Lemma keeps_raise A e : keeps Q (raise e : M A).
Proof. intros s; apply Qrefl. Qed.

Lemma keeps_get_req : keeps Q (get_req : M Req).
Proof. intros s; apply Qrefl. Qed.

Lemma keeps_get_self : keeps Q (get_self : M Preparer).
Proof. intros s; apply Qrefl. Qed.

Lemma keeps_get_world : keeps Q (get_world : M World).
Proof. intros s; apply Qrefl. Qed.

Lemma keeps_put_req r : keeps Q (put_req r : M unit).
Proof. intros s; apply Qself. Qed.

Lemma keeps_emit e : keeps Q (emit e : M unit).
Proof. intros s; apply Qself. Qed.

Lemma keeps_log lvl fmt args : keeps Q (log lvl fmt args : M unit).
Proof. apply keeps_emit. Qed.

Lemma keeps_py_assert b msg : keeps Q (py_assert b msg : M unit).
Proof. destruct b; [apply keeps_ret | apply keeps_raise]. Qed.

Lemma keeps_call A e (c : Effect World A) : keeps Q (call e c).
Proof.
  intros s; unfold call; destruct (c _ _) as [[r q] w]; apply Qself.
Qed.

Lemma keeps_call_world A e (c : World -> Result A * World) :
  keeps Q (call_world e c).
Proof.
  intros s; unfold call_world; destruct (c _) as [r w]; apply Qself.
Qed.

Lemma keeps_bind A B (m : M A) (f : A -> M B) :
  keeps Q m -> (forall a, keeps Q (f a)) -> keeps Q (bind m f).
Proof.
  intros Hm Hf s; unfold bind.
  specialize (Hm s); destruct (m s) as [[a|e] s1]; cbn in Hm.
  - exact (Qtrans Hm (Hf a s1)).
  - exact Hm.
Qed.

Lemma keeps_try_except A (m : M A) handles (h : Exn -> M A) :
  keeps Q m -> (forall e, keeps Q (h e)) -> keeps Q (try_except m handles h).
Proof.
  intros Hm Hh s; unfold try_except.
  specialize (Hm s); destruct (m s) as [[a|e] s1]; cbn in Hm.
  - exact Hm.
  - destruct (handles e); [exact (Qtrans Hm (Hh e s1)) | exact Hm].
Qed.

Lemma keeps_indent_log A (m : M A) : keeps Q m -> keeps Q (indent_log m).
Proof.
  intros Hm s; rewrite indent_log_leaving.
  unfold leaving, dedented; cbn.
  apply Qtrans with (indented s); [apply Qself |].
  apply Qtrans with (snd (m (indented s))); [apply Hm | apply Qself].
Qed.

End Keeping.

Lemma same_configuration_refl (s : State World) : same_configuration s s.
Proof.
  repeat split; exists 0; cbn.
  destruct (download_dir (st_self s)); reflexivity.
Qed.

Lemma iter_plus A (f : A -> A) n m x :
  Nat.iter (n + m) f x = Nat.iter n f (Nat.iter m f x).
Proof.
  induction n as [|n IH]; cbn; [reflexivity |].
  f_equal; exact IH.
Qed.

Lemma same_configuration_trans (s1 s2 s3 : State World) :
  same_configuration s1 s2 -> same_configuration s2 s3 ->
  same_configuration s1 s3.
Proof.
  intros (Hs & Hb & Hw & n & Hn) (Hs' & Hb' & Hw' & n' & Hn').
  repeat split; try congruence.
  exists (n' + n); rewrite Hn', Hn.
  destruct (download_dir (st_self s1)); cbn; [| reflexivity].
  rewrite iter_plus; reflexivity.
Qed.

Lemma same_configuration_self (s : State World) r w tr :
  same_configuration s (mkState r (st_self s) w tr).
Proof.
  repeat split; exists 0; cbn.
  destruct (download_dir (st_self s)); reflexivity.
Qed.

Lemma download_should_save_keeps :
  keeps same_configuration download_should_save.
Proof.
  intros s.
  unfold download_should_save, bind, get_self, get_world, put_self, log,
    emit, ret, raise; cbn.
  destruct (download_dir (st_self s)) as [d|] eqn:Hd; cbn;
    [| apply same_configuration_refl].
  destruct (d =? ""); cbn; [apply same_configuration_refl |].
  destruct (path_exists _ _); cbn;
    repeat split; exists 1; cbn; rewrite Hd; reflexivity.
Qed.

(** X12.  Preparing a requirement does not reconfigure the preparer:
    whatever the outcome, [src_dir], [build_dir] and [wheel_download_dir]
    are what they were, and [download_dir] is what it was up to user
    expansion of the path. *)
Theorem preparer_configuration_kept s0 :
  let self := st_self s0 in
  let self' := st_self (snd (prepare s0)) in
  src_dir self' = src_dir self
  /\ build_dir self' = build_dir self
  /\ wheel_download_dir self' = wheel_download_dir self
  /\ exists n,
       download_dir self'
       = option_map (Nat.iter n expanduser) (download_dir self).
Proof.
  assert (H : keeps same_configuration prepare).
  { unfold prepare_requirement, announce, prepare_editable,
      prepare_installed, prepare_fresh, locate_link,
      check_hash_feasibility, effective_hashes, unpack_step, after_unpack,
      resolve_conflict, prep_for_dist, req_link.
    repeat first
      [ apply download_should_save_keeps
      | apply (keeps_bind same_configuration_trans); [| intros ? ]
      | apply (keeps_try_except same_configuration_trans); [| intros ? ]
      | apply (keeps_indent_log same_configuration_trans
                                same_configuration_self)
      | apply keeps_ret; apply same_configuration_refl
      | apply keeps_raise; apply same_configuration_refl
      | apply keeps_get_req; apply same_configuration_refl
      | apply keeps_get_self; apply same_configuration_refl
      | apply keeps_get_world; apply same_configuration_refl
      | apply keeps_put_req; apply same_configuration_self
      | apply keeps_log; apply same_configuration_self
      | apply keeps_emit; apply same_configuration_self
      | apply keeps_py_assert; apply same_configuration_refl
      | apply keeps_call; apply same_configuration_self
      | apply keeps_call_world; apply same_configuration_self
      | match goal with
        | |- keeps _ (if ?b then _ else _) => destruct b
        | |- keeps _ (match ?x with _ => _ end) => destruct x
        | |- keeps _ (let '(_, _) := ?x in _) => destruct x
        end ]. }
  exact (H s0).
Qed.

Lemma prepare_editable_result s abstract_dist s' :
  prepare_editable resolver s = (Ok abstract_dist, s') ->
  abstract_dist <> Installed.
Proof.
  unfold prepare_editable; intros H.
  repeat (apply bind_inv_ok in H as (? & ? & ? & H)).
  unfold ret in H; inversion H.
  apply make_abstract_dist_fresh.
Qed.

(** X13.  A call that returned the [Installed] abstraction cannot be
    repeated on the same requirement: [satisfied_by] is now set, so the
    next call fails at the assertion of line 159 and changes nothing. *)
Theorem installed_result_is_final s0 s' :
  prepare s0 = (Ok Installed, s') ->
  prepare s' = (Raise (AssertionError ""), s').
Proof.
  intros H; unfold prepare_requirement in H.
  apply bind_inv_ok in H as ([] & s1 & _ & H).
  apply bind_inv_ok in H as ([] & s1' & Hy & H).
  unfold py_assert in Hy.
  destruct (truthy (require_hashes resolver)); [| discriminate].
  unfold ret in Hy; inversion Hy; subst s1'; clear Hy.
  rewrite indent_log_leaving in H; unfold leaving in H.
  match type of H with
  | (fst ?x, _) = _ => destruct x as [r s2] eqn:Hb
  end.
  cbn [fst snd] in H; inversion H; subst r s'; clear H.
  unfold bind at 1, get_req at 1 in Hb; cbv beta iota in Hb.
  unfold indented at 1 2 in Hb; cbn [st_req] in Hb.
  destruct (editable (st_req s1)) eqn:He.
  - exfalso; exact (prepare_editable_result _ Hb eq_refl).
  - destruct (satisfied_by (st_req s1)) as [d|] eqn:Hs; cbn [truthy] in Hb.
    + assert (Hq : st_req s2 = st_req s1).
      { unfold prepare_installed, bind, log, emit, ret in Hb.
        destruct (hashes_required resolver); inversion Hb; reflexivity. }
      unfold prepare_requirement, announce, bind, get_req, dedented; cbn.
      rewrite Hq, He, Hs; reflexivity.
    + rewrite prepare_fresh_acquire in Hb.
      apply bind_inv_ok in Hb as (a & s3 & Hacq & Hb).
      apply bind_inv_ok in Hb as (? & ? & _ & Hb).
      unfold ret in Hb; inversion Hb; subst a.
      exfalso; exact (acquire_result _ _ Hacq eq_refl).
Qed.


(** X15.  [IsSDist.dist] returns the distribution that [req.get_dist]
    gave.  The finder is handed dependency links exactly when that
    distribution has [dependency_links.txt] metadata, and then the lines of
    that file; without it the world is left as [get_dist] returned it. *)
Theorem sdist_dist_dependency_links s d q w :
  get_dist (st_req s) (st_world s) = (Ok d, q, w) ->
  let lines := get_metadata_lines w d "dependency_links.txt" in
  fst (dist IsSDist s) = Ok (Some d)
  /\ st_req (snd (dist IsSDist s)) = q
  /\ (has_metadata w d "dependency_links.txt" = true ->
      st_world (snd (dist IsSDist s)) = add_dependency_links lines w
      /\ st_trace (snd (dist IsSDist s))
         = st_trace s ++ [EvGetDist; EvAddDependencyLinks lines])
  /\ (has_metadata w d "dependency_links.txt" = false ->
      st_world (snd (dist IsSDist s)) = w
      /\ st_trace (snd (dist IsSDist s)) = st_trace s ++ [EvGetDist]).
Proof.
  intros Hg lines.
  unfold dist, bind, call, get_world, call_world, ret; rewrite Hg; cbn.
  fold lines.
  destruct (has_metadata w d "dependency_links.txt"); cbn;
    rewrite <- ?app_assoc; repeat split; auto; discriminate.
Qed.

Lemma prep_for_dist_self a s r s' :
  prep_for_dist a s = (r, s') -> st_self s' = st_self s.
Proof.
  destruct a; unfold prep_for_dist, bind, call, ret.
  - intros H; inversion H; reflexivity.
  - destruct (run_egg_info _ _) as [[[[]|e] q] w]; cbn.
    + destruct (assert_source_matches_version _ _) as [[r' q'] w'].
      intros H; inversion H; reflexivity.
    + intros H; inversion H; reflexivity.
  - intros H; inversion H; reflexivity.
Qed.

(** X16.  On the third branch a download directory that is set but does
    not exist is noticed only at line 315: by then the archive has been
    unpacked and the abstraction prepared, and the call fails with
    [InstallationError] without archiving or looking at what is
    installed. *)
Theorem fresh_missing_download_dir_found_late s0 s1 h s2 l w3 s4 d :
  fresh_path resolver s0 s1 ->
  before_unpack resolver (indented s1) = (Ok h, s2) ->
  link (st_req s2) = Some l ->
  unpack_url l (source_dir (st_req s2))
             (fst (destination_and_retention (st_self s2) l))
             (snd (destination_and_retention (st_self s2) l))
             h (st_world s2) = (Ok tt, w3) ->
  prep_for_dist (make_abstract_dist (st_req s2))
                (after_call s2 (unpack_call s2 l h) w3) = (Ok tt, s4) ->
  download_dir (st_self s2) = Some d ->
  d <> "" ->
  path_exists (st_world s4) (expanduser d) = false ->
  prepare s0
  = (Raise (InstallationError
              ("Could not find or access download directory '"
                 ++ display_path (expanduser d) ++ "'")),
     mkState (st_req s4)
             (set_download_dir (Some (expanduser d)) (st_self s2))
             (st_world s4)
             (st_trace s4
                ++ [EvLog CRITICAL "Could not find download directory" [];
                    EvDedent])).
Proof.
  intros Hf Hb Hl Hu Hp Hd Hne He.
  apply String.eqb_neq in Hne.
  assert (Hself : st_self s4 = st_self s2).
  { rewrite (prep_for_dist_self _ _ Hp); reflexivity. }
  rewrite (prepare_before_unpack Hf Hb).
  unfold from_unpack, bind at 1.
  rewrite (unpack_step_run _ _ Hl), Hu.
  unfold after_unpack, bind at 1 2, get_req at 1.
  cbv beta iota.
  change (st_req (after_call s2 (unpack_call s2 l h) w3)) with (st_req s2).
  rewrite (bind_ok _ Hp).
  unfold download_should_save, bind, get_self, get_world, put_self, log,
    emit; cbn.
  rewrite Hself, Hd, Hne; cbn.
  rewrite He; cbn.
  unfold leaving, dedented; cbn.
  rewrite <- !app_assoc; reflexivity.
Qed.

(** X17.  On the third branch, when no installed distribution matches
    after the second look (or none was looked for), lines 324-342 do
    nothing: the call returns the abstraction with the requirement, the
    preparer and the world exactly as the acquisition left them,
    [conflicts_with] included. *)
Theorem nothing_installed_nothing_resolved s0 s1 abstract_dist s2 :
  fresh_path resolver s0 s1 ->
  acquire resolver (indented s1) = (Ok abstract_dist, s2) ->
  satisfied_by (st_req s2) = None ->
  prepare s0 = (Ok abstract_dist, dedented s2).
Proof.
  intros Hf Ha Hs.
  rewrite (prepare_after_acquire Hf Ha).
  unfold bind, resolve_conflict, get_req; cbn; rewrite Hs; reflexivity.
Qed.

End Further.

(** ** Further runs in the concrete environment *)

(** The download directory exists: the answer is the same the second
    time. *)
Lemma download_should_save_stable_witness :
  download_should_save
    (platform := Demo.platform)
    (snd (download_should_save (platform := Demo.platform)
                               Demo.from_sdist_saving))
  = (Ok true,
     snd (download_should_save (platform := Demo.platform)
                               Demo.from_sdist_saving)).
Proof.
  apply (download_should_save_stable
           (platform := Demo.platform) Demo.from_sdist_saving).
  - intros p; reflexivity.
  - intros p H; exact H.
  - reflexivity.
Defined.

(** A requirement that comes in with [satisfied_by] set. *)
Lemma preset_satisfied_by_asserts_witness :
  fst (Demo.prepare Demo.plain
         (Demo.start (set_satisfied_by (Some Demo.installed)
                                       (Demo.with_link Demo.sdist_link))
                     Demo.preparer []))
  = Raise (AssertionError "").
Proof.
  unfold Demo.prepare.
  rewrite (preset_satisfied_by_asserts
             (platform := Demo.platform) (download := Demo.download)
             (requirement := Demo.requirement)
             (resolver_ops := Demo.resolver_ops)
             Demo.plain
             (Demo.start (set_satisfied_by (Some Demo.installed)
                                           (Demo.with_link Demo.sdist_link))
                         Demo.preparer [])
             (d := Demo.installed) eq_refl eq_refl).
  reflexivity.
Defined.

(** Installed, hashes required: trusted as it is. *)
Lemma already_installed_is_trusted_witness :
  fst (prepare_requirement
         (platform := Demo.platform) (download := Demo.download)
         (requirement := Demo.requirement)
         (resolver_ops := Demo.finding_installed)
         Demo.strict Demo.over_installed)
  = Ok Installed.
Proof.
  rewrite (already_installed_is_trusted
             (platform := Demo.platform) (download := Demo.download)
             (requirement := Demo.requirement)
             (resolver_ops := Demo.finding_installed)
             Demo.strict Demo.over_installed
             (reason := "already satisfied")
             (q := set_satisfied_by (Some Demo.installed)
                                    (Demo.with_link Demo.sdist_link))
             (w := ["site-packages/demo"]) (d := Demo.installed)
             (rh := true)
             eq_refl eq_refl eq_refl eq_refl eq_refl eq_refl eq_refl).
  reflexivity.
Defined.

(** [require_hashes] was never set. *)
Lemma require_hashes_unset_never_prepares_witness :
  exists e, fst (Demo.prepare Demo.unset Demo.from_sdist) = Raise e.
Proof.
  exact (proj1 (require_hashes_unset_never_prepares
                  (platform := Demo.platform) (download := Demo.download)
                  (requirement := Demo.requirement)
                  (resolver_ops := Demo.resolver_ops)
                  Demo.unset Demo.from_sdist eq_refl)).
Defined.

(** The finder returns without a link. *)
Lemma missing_link_asserts_witness :
  fst (prepare_requirement
         (platform := Demo.platform) (download := Demo.download)
         (requirement := Demo.linkless)
         (resolver_ops := Demo.resolver_ops)
         Demo.plain Demo.from_name)
  = Raise (AssertionError "").
Proof.
  rewrite (missing_link_asserts
             (platform := Demo.platform) (download := Demo.download)
             (requirement := Demo.linkless)
             (resolver_ops := Demo.resolver_ops)
             (resolver := Demo.plain) (s0 := Demo.from_name)
             (s1 := snd (announce (platform := Demo.platform)
                                  (download := Demo.download)
                                  (requirement := Demo.linkless)
                                  (resolver_ops := Demo.resolver_ops)
                                  Demo.plain Demo.from_name))
             (q := Demo.set_source_dir (Some "/build/demo") Demo.named)
             (w := ["/build/demo/"]) (dir := "/build/demo") (u := false)
             (q1 := Demo.set_source_dir (Some "/build/demo") Demo.named)
             (w1 := ["/build/demo/"])
             (q2 := Demo.set_source_dir (Some "/build/demo") Demo.named)
             (w2 := ["/build/demo/"])
             (conj eq_refl (conj eq_refl (conj eq_refl eq_refl)))
             eq_refl eq_refl eq_refl eq_refl eq_refl eq_refl).
  reflexivity.
Defined.

(** The index answers 503 while the link is looked up. *)
Lemma populate_link_errors_pass_through_witness :
  fst (prepare_requirement
         (platform := Demo.platform) (download := Demo.download)
         (requirement := Demo.offline)
         (resolver_ops := Demo.resolver_ops)
         Demo.plain Demo.from_name)
  = Raise (HTTPError "503 Server Error").
Proof.
  rewrite (populate_link_errors_pass_through
             (platform := Demo.platform) (download := Demo.download)
             (requirement := Demo.offline)
             (resolver_ops := Demo.resolver_ops)
             (resolver := Demo.plain) (s0 := Demo.from_name)
             (s1 := snd (announce (platform := Demo.platform)
                                  (download := Demo.download)
                                  (requirement := Demo.offline)
                                  (resolver_ops := Demo.resolver_ops)
                                  Demo.plain Demo.from_name))
             (q := Demo.set_source_dir (Some "/build/demo") Demo.named)
             (w := ["/build/demo/"]) (dir := "/build/demo") (u := false)
             (q1 := Demo.set_source_dir (Some "/build/demo") Demo.named)
             (w1 := ["/build/demo/"])
             (e := HTTPError "503 Server Error")
             (q2 := Demo.set_source_dir (Some "/build/demo") Demo.named)
             (w2 := ["/build/demo/"])
             (conj eq_refl (conj eq_refl (conj eq_refl eq_refl)))
             eq_refl eq_refl eq_refl eq_refl eq_refl).
  reflexivity.
Defined.

(** An editable checkout. *)
Lemma editable_never_resolves_or_unpacks_witness :
  exists tr,
    st_trace (snd (Demo.prepare Demo.plain Demo.from_checkout)) = [] ++ tr
    /\ forallb (fun e => negb (resolves_or_unpacks e)) tr = true.
Proof.
  exact (editable_never_resolves_or_unpacks
           (platform := Demo.platform) (download := Demo.download)
           (requirement := Demo.requirement)
           (resolver_ops := Demo.resolver_ops)
           Demo.plain Demo.from_checkout eq_refl).
Defined.

(** An editable checkout, the download directory does not exist. *)
Lemma editable_missing_download_dir_witness :
  fst (Demo.prepare Demo.plain Demo.from_checkout_saving)
  = Raise (InstallationError
             "Could not find or access download directory '/downloads'").
Proof.
  unfold Demo.prepare.
  rewrite (editable_missing_download_dir
             (platform := Demo.platform) (download := Demo.download)
             (requirement := Demo.requirement)
             (resolver_ops := Demo.resolver_ops)
             Demo.plain Demo.from_checkout_saving
             (q := Demo.set_source_dir (Some "/src/demo") Demo.checkout)
             (w := ["/src/demo/"]) (d := "/downloads")
             eq_refl eq_refl eq_refl eq_refl
             ltac:(discriminate) eq_refl).
  reflexivity.
Defined.

(** Installed distributions are ignored: none is looked at. *)
Lemma ignore_installed_never_consults_witness :
  exists tr,
    st_trace (snd (Demo.prepare Demo.plain Demo.over_installed)) = [] ++ tr
    /\ forallb (fun e => negb (consults_installed e)) tr = true.
Proof.
  exact (ignore_installed_never_consults
           (platform := Demo.platform) (download := Demo.download)
           (requirement := Demo.requirement)
           (resolver_ops := Demo.resolver_ops)
           Demo.plain Demo.over_installed eq_refl eq_refl).
Defined.

(** The second call on an installed requirement. *)
Lemma installed_result_is_final_witness :
  fst (prepare_requirement
         (platform := Demo.platform) (download := Demo.download)
         (requirement := Demo.requirement)
         (resolver_ops := Demo.finding_installed) Demo.lazy_
         (snd (prepare_requirement
                 (platform := Demo.platform) (download := Demo.download)
                 (requirement := Demo.requirement)
                 (resolver_ops := Demo.finding_installed)
                 Demo.lazy_ Demo.over_installed)))
  = Raise (AssertionError "").
Proof.
  rewrite (installed_result_is_final
             (platform := Demo.platform) (download := Demo.download)
             (requirement := Demo.requirement)
             (resolver_ops := Demo.finding_installed)
             Demo.lazy_ Demo.over_installed
             (s' := snd (prepare_requirement
                           (platform := Demo.platform)
                           (download := Demo.download)
                           (requirement := Demo.requirement)
                           (resolver_ops := Demo.finding_installed)
                           Demo.lazy_ Demo.over_installed))
             eq_refl).
  reflexivity.
Defined.

(** A source tree without dependency links. *)
Lemma sdist_dist_dependency_links_witness :
  fst (dist (platform := Demo.platform) (requirement := Demo.requirement)
            (resolver_ops := Demo.resolver_ops) IsSDist Demo.from_sdist)
  = Ok (Some Demo.built).
Proof.
  exact (proj1 (sdist_dist_dependency_links
                  (platform := Demo.platform)
                  (requirement := Demo.requirement)
                  (resolver_ops := Demo.resolver_ops)
                  Demo.from_sdist (d := Demo.built)
                  (q := Demo.with_link Demo.sdist_link) (w := [])
                  eq_refl)).
Defined.

(** A source archive, the download directory does not exist. *)
Lemma fresh_missing_download_dir_found_late_witness :
  fst (Demo.prepare Demo.plain Demo.from_sdist_unsaved)
  = Raise (InstallationError
             "Could not find or access download directory '/downloads'")
  /\ In (EvUnpackUrl Demo.sdist_link (Some "/build/demo")
                     (Some "/downloads") true
                     (Hashes [("sha256",
                               "5feceb66ffc86f38d952786c6d696c79")]))
        (st_trace (snd (Demo.prepare Demo.plain Demo.from_sdist_unsaved))).
Proof.
  unfold Demo.prepare.
  rewrite (fresh_missing_download_dir_found_late
             (platform := Demo.platform) (download := Demo.download)
             (requirement := Demo.requirement)
             (resolver_ops := Demo.resolver_ops)
             (resolver := Demo.plain) (s0 := Demo.from_sdist_unsaved)
             (s1 := Demo.announced Demo.plain Demo.from_sdist_unsaved)
             (h := Hashes [("sha256", "5feceb66ffc86f38d952786c6d696c79")])
             (s2 := Demo.hashed Demo.plain Demo.from_sdist_unsaved)
             (l := Demo.sdist_link)
             (w3 := ["/build/demo/PKG-INFO"; "/build/demo/"])
             (s4 := snd (prep_for_dist
                           (requirement := Demo.requirement) IsSDist
                           (after_call
                              (Demo.hashed Demo.plain Demo.from_sdist_unsaved)
                              (unpack_call
                                 (Demo.hashed Demo.plain
                                              Demo.from_sdist_unsaved)
                                 Demo.sdist_link
                                 (Hashes [("sha256",
                                           "5feceb66ffc86f38d952786c6d696c79")]))
                              ["/build/demo/PKG-INFO"; "/build/demo/"])))
             (d := "/downloads")
             (conj eq_refl (conj eq_refl (conj eq_refl eq_refl)))
             eq_refl eq_refl eq_refl eq_refl eq_refl
             ltac:(discriminate) eq_refl).
  split; [reflexivity |].
  cbn; tauto.
Defined.

(** Nothing is installed: the source tree is returned as unpacked. *)
Lemma nothing_installed_nothing_resolved_witness :
  fst (Demo.prepare Demo.eager Demo.from_sdist) = Ok IsSDist
  /\ conflicts_with (st_req (snd (Demo.prepare Demo.eager Demo.from_sdist)))
     = None.
Proof.
  unfold Demo.prepare.
  rewrite (nothing_installed_nothing_resolved
             (platform := Demo.platform) (download := Demo.download)
             (requirement := Demo.requirement)
             (resolver_ops := Demo.resolver_ops)
             (resolver := Demo.eager) (s0 := Demo.from_sdist)
             (s1 := Demo.announced Demo.eager Demo.from_sdist)
             (abstract_dist := IsSDist)
             (s2 := Demo.acquired Demo.eager Demo.from_sdist)
             (conj eq_refl (conj eq_refl (conj eq_refl eq_refl)))
             eq_refl eq_refl).
  split; reflexivity.
Defined.
